(** * The Dart backend of the frugal IDL compiler

    A shallow embedding of [compiler/generator/dartlang/generator.go]:
    the Go functions become Rocq functions over [string], the maps the
    generator fills become [gmap]s, and the files it touches become an
    explicit file-system state.  The Dart text the generator emits is
    related to a small statement language with a trace semantics, so
    that what the generated publisher and subscriber do at run time
    can be stated and proved. *)

From Stdlib Require Import Ascii ZArith Lia.
From stdpp Require Import gmap strings list fin_maps pretty.

Local Open Scope Z_scope.
Local Open Scope nat_scope.

(** ** Characters that cannot be written inside a string literal *)

Definition nl : string := String "010"%char "".
Definition dq : string := String "034"%char "".

(** ** The parts of Go's [strings] package the generator calls

    The functions work on bytes.  They agree with Go on ASCII text,
    which is what IDL identifiers and namespaces are made of; bytes
    from 128 up are left as they are. *)
Module strings.

Definition is_upper (c : ascii) : bool :=
  (65 <=? nat_of_ascii c) && (nat_of_ascii c <=? 90).

Definition is_lower (c : ascii) : bool :=
  (97 <=? nat_of_ascii c) && (nat_of_ascii c <=? 122).

Definition is_digit (c : ascii) : bool :=
  (48 <=? nat_of_ascii c) && (nat_of_ascii c <=? 57).

Definition lower (c : ascii) : ascii :=
  if is_upper c then ascii_of_nat (nat_of_ascii c + 32) else c.

Definition upper (c : ascii) : ascii :=
  if is_lower c then ascii_of_nat (nat_of_ascii c - 32) else c.

(** [strings.ToLower]. *)
Fixpoint ToLower (s : string) : string :=
  match s with
  | "" => ""
  | String c r => String (lower c) (ToLower r)
  end.

(** [isSeparator]: ASCII letters, digits and the underscore are not
    separators, every other ASCII character is. *)
Definition isSeparator (c : ascii) : bool :=
  if nat_of_ascii c <=? 127
  then negb (is_digit c || is_lower c || is_upper c || Ascii.eqb c "_")
  else false.

Fixpoint Title_from (prev : ascii) (s : string) : string :=
  match s with
  | "" => ""
  | String c r =>
      String (if isSeparator prev then upper c else c) (Title_from c r)
  end.

(** [strings.Title]: the first letter of every word in upper case. *)
Definition Title (s : string) : string := Title_from " " s.

(** [strings.Replace(s, old, new, -1)] for one-byte [old] and [new]. *)
Fixpoint ReplaceAll (s : string) (old new : ascii) : string :=
  match s with
  | "" => ""
  | String c r =>
      String (if Ascii.eqb c old then new else c) (ReplaceAll r old new)
  end.

(** [strings.Contains(s, sep)] for a one-byte [sep]. *)
Fixpoint Contains (s : string) (sep : ascii) : bool :=
  match s with
  | "" => false
  | String c r => Ascii.eqb c sep || Contains r sep
  end.

(** [s[0:strings.Index(s, sep)]] when [sep] occurs in [s]. *)
Fixpoint before (s : string) (sep : ascii) : string :=
  match s with
  | "" => ""
  | String c r => if Ascii.eqb c sep then "" else String c (before r sep)
  end.

(** [s[strings.Index(s, sep)+1:]] when [sep] occurs in [s]. *)
Fixpoint after (s : string) (sep : ascii) : string :=
  match s with
  | "" => ""
  | String c r => if Ascii.eqb c sep then r else after r sep
  end.

End strings.

(** ** The fragment of [fmt.Sprintf] the generator relies on

    Every operand the generator passes is a Go [string].  The model
    covers formats built from literal text, [%%] and verbs that follow
    the [%] directly: [%s] and [%v] print the operand, [%T] its type,
    any other verb is a bad verb for a string ([%!d(string=x)]); a verb
    with no operand left prints [%!d(MISSING)], a [%] at the very end
    [%!(NOVERB)], and operands left over are listed in [%!(EXTRA ...)].
    Flags, widths, precisions, argument indexes, the quoting and
    hexadecimal verbs and verbs outside ASCII are not covered: on such a
    format [Sprintf] is [None]. *)
Module fmt.

Fixpoint extra_operands (a : list string) : string :=
  match a with
  | [] => ""
  | [x] => "string=" +:+ x
  | x :: r => "string=" +:+ x +:+ ", " +:+ extra_operands r
  end.

Definition extra (a : list string) : string :=
  match a with
  | [] => ""
  | _ => "%!(EXTRA " +:+ extra_operands a +:+ ")"
  end.

(** What may not follow a [%] in the covered fragment. *)
Definition uncovered (c : ascii) : bool :=
  (if in_dec ascii_dec c
        ["#"; "0"; "+"; "-"; " "; "."; "*"; "["; "q"; "x"; "X"]%char
   then true else false)
  || strings.is_digit c || negb (nat_of_ascii c <=? 127).

(** [printArg] on a string operand. *)
Definition printArg (x : string) (verb : ascii) : string :=
  if Ascii.eqb verb "s" || Ascii.eqb verb "v" then x
  else if Ascii.eqb verb "T" then "string"
  else "%!" +:+ String verb ("(string=" +:+ x +:+ ")").

Fixpoint doPrintf (format : string) (a : list string) : option string :=
  match format with
  | "" => Some (extra a)
  | String c rest =>
      if negb (Ascii.eqb c "%") then String c <$> doPrintf rest a
      else
        match rest with
        | "" => Some ("%!(NOVERB)" +:+ extra a)
        | String verb rest =>
            if Ascii.eqb verb "%" then String "%"%char <$> doPrintf rest a
            else if uncovered verb then None
            else
              match a with
              | [] =>
                  (λ r, "%!" +:+ String verb ("(MISSING)" +:+ r))
                    <$> doPrintf rest []
              | x :: a' => (λ r, printArg x verb +:+ r) <$> doPrintf rest a'
              end
        end
  end.

Definition Sprintf (format : string) (a : list string) : option string :=
  doPrintf format a.

End fmt.

(** ** The schema, as the [parser] package hands it to a generator

    The package is not part of the generator's file.  Its records are
    written down with the fields the generator reads, and its methods
    as the specification describes them. *)
Module parser.

(** A scope's topic prefix: the literal, in which [{name}] marks a
    variable, and the variables' names in the order they are declared.
    The field [String] of the Go struct is [String_] here. *)
Record ScopePrefix := {
  String_ : string;
  Variables : list string
}.

(** An operation of a scope.  [Param] may be qualified by the include
    the type comes from, as in [base.APIException]. *)
Record Operation := {
  Op_Comment : option (list string);
  Op_Name : string;
  Param : string
}.

Record Scope := {
  Comment : option (list string);
  Name : string;
  Prefix : ScopePrefix;
  Operations : list Operation
}.

(** The namespaces a schema declares, by target language. *)
Record Thrift := {
  Namespaces : gmap string string
}.

Record Frugal := {
  Frugal_Name : string;
  Frugal_Thrift : Thrift;
  ParsedIncludes : gmap string Thrift;
  Scopes : list Scope
}.

(** A character of the regular expression class [\w]. *)
Definition is_word (c : ascii) : bool :=
  strings.is_digit c || strings.is_lower c || strings.is_upper c
  || Ascii.eqb c "_".

(** One left-to-right pass that finds the placeholders [{\w*}] of a
    prefix literal.  [pending] holds an opening brace and the word
    characters read after it, for as long as they may still turn out
    to be a placeholder; [slot i] is what the [i]-th placeholder found
    (counting from [i]) is replaced with. *)
Fixpoint replace_placeholders (slot : nat → option string) (i : nat)
    (pending : option string) (s : string) : string :=
  match s with
  | "" => default "" pending
  | String c r =>
      match pending with
      | None =>
          if Ascii.eqb c "{"
          then replace_placeholders slot i (Some "{") r
          else String c (replace_placeholders slot i None r)
      | Some buf =>
          if Ascii.eqb c "}"
          then default (buf +:+ "}") (slot i)
                 +:+ replace_placeholders slot (S i) None r
          else if is_word c
          then replace_placeholders slot i (Some (buf +:+ String c "")) r
          else if Ascii.eqb c "{"
          then buf +:+ replace_placeholders slot i (Some "{") r
          else buf +:+ String c (replace_placeholders slot i None r)
      end
  end.

(** Modelled from the spec: [ScopePrefix.Template] is not under src/.
    It makes the literal's placeholders positional, so that
    [fmt.Sprintf] can fill them: every [{name}] becomes [%s]. *)
Definition Template (p : ScopePrefix) : string :=
  replace_placeholders (fun _ => Some "%s") 0 None (String_ p).

(** Modelled from the spec: [Operation.IncludeName] is not under src/.
    The include a qualified parameter type names, empty when the type
    is defined in the schema itself. *)
Definition IncludeName (o : Operation) : string :=
  if strings.Contains (Param o) "." then strings.before (Param o) "."
  else "".

(** Modelled from the spec: [Operation.ParamName] is not under src/.
    The parameter type without the include that qualifies it. *)
Definition ParamName (o : Operation) : string :=
  if strings.Contains (Param o) "." then strings.after (Param o) "."
  else Param o.

(** Modelled from the spec: [Frugal.NamespaceForInclude] is not under
    src/.  The namespace the included schema declares for [lang], if
    it declares one. *)
Definition NamespaceForInclude (f : Frugal) (include lang : string)
    : option string :=
  t ← ParsedIncludes f !! include; Namespaces t !! lang.

Fixpoint add_new (seen : list string) (l : list string) : list string :=
  match l with
  | [] => seen
  | x :: r => add_new (if decide (x ∈ seen) then seen else seen ++ [x]) r
  end.

Definition Scope_ReferencedIncludes (s : Scope) : list string :=
  add_new []
    (IncludeName <$> filter (λ o, strings.Contains (Param o) "." = true)
                       (Operations s)).

(** Modelled from the spec: [Frugal.ReferencedIncludes] is not under
    src/.  The includes the operations of the schema's scopes refer to,
    each once, in the order of their first use. *)
Definition ReferencedIncludes (f : Frugal) : list string :=
  add_new [] (Scopes f ≫= Scope_ReferencedIncludes).

End parser.

(** ** Files

    A file system is a finite map from paths to contents.  Opening a
    path that is not in the map is the one failure the model has;
    failures of the device itself are outside it. *)
Module os.

Inductive error :=
  | Errorf (msg : string)
  | PathError (op path : string).

Definition FS := gmap string string.

Definition bytes (s : string) : list ascii := String.list_ascii_of_string s.
Definition of_bytes (l : list ascii) : string := String.string_of_list_ascii l.

(** [File.Stat().Size()]. *)
Definition Size (content : string) : nat := String.length content.

(** [File.WriteAt(data, off)]: the bytes before [off] stay (a file
    shorter than [off] is filled up with zero bytes), [data] follows,
    and what the file held behind [data] stays as well. *)
Definition WriteAt (content data : string) (off : nat) : string :=
  of_bytes
    (take off (bytes content ++ replicate (off - Size content) zero)
       ++ bytes data
       ++ drop (off + String.length data) (bytes content)).

End os.

(** ** The generator *)

Definition lang : string := "dart".
Definition defaultOutputDir : string := "gen-dart".
Definition minimumDartVersion : string := "1.12.0".
Definition tab : string := "  ".
Definition tabtab : string := tab +:+ tab.
Definition tabtabtab : string := tab +:+ tab +:+ tab.

(** [generator.BaseGenerator], embedded in [Generator]: the options and
    the schema being generated. *)
Record Generator := {
  Options : gmap string string;
  Frugal : parser.Frugal
}.

Record gitDep := { URL : string }.

Record dep := {
  Git : gitDep;
  Path : string
}.

Record env := { SDK : string }.

Record pubspec := {
  ps_Name : string;
  ps_Version : string;
  ps_Description : string;
  ps_Environment : env;
  ps_Dependencies : gmap string dep
}.

(** [dep{Git: gitDep{URL: url}}] and [dep{Path: path}]: the field left
    out holds Go's zero value. *)
Definition dep_git (url : string) : dep := {| Git := {| URL := url |}; Path := "" |}.
Definition dep_path (path : string) : dep := {| Git := {| URL := "" |}; Path := path |}.

Definition toLibraryName (name : string) : string :=
  strings.ReplaceAll name "." "_".

Section dartlang.

(** [globals.Version], [globals.TopicDelimiter] and
    [generator.FilePrefix]: constants of packages that are not part of
    the generator's file. *)
Variable Version : string.
Variable TopicDelimiter : string.
Variable FilePrefix : string.

(** [filepath.Join], [yaml.Marshal], and the two methods the generator
    inherits from [generator.BaseGenerator]. *)
Variable Join : list string → string.
Variable Marshal : pubspec → string + os.error.
Variable GenerateInlineComment : list string → string → string.

(** [generator.FileType] is a string type; [CombinedScopeFile] is one
    of its constants. *)
Definition FileType := string.
Variable CombinedScopeFile : FileType.
Variable File : Type.
Variable CreateFile : string → string → string → bool → option File * option os.error.

Definition GenerateThrift (g : Generator) : bool := false.

Definition GetOutputDir (g : Generator) (dir : string) (f : parser.Frugal) : string :=
  match parser.Namespaces (parser.Frugal_Thrift f) !! lang with
  | Some pkg => Join [dir; toLibraryName pkg]
  | None => Join [dir; parser.Frugal_Name f]
  end.

Definition DefaultOutputDir (g : Generator) : string := defaultOutputDir.

(** The namespace an include resolves to: the one its schema declares
    for Dart, or else the include's own name. *)
Definition include_namespace (f : parser.Frugal) (include : string) : string :=
  match parser.NamespaceForInclude f include lang with
  | Some namespace => namespace
  | None => include
  end.

(** The loop of [addToPubspec] over the referenced includes. *)
Definition add_includes (f : parser.Frugal) (includes : list string)
    (deps : gmap string dep) : gmap string dep :=
  foldl (λ deps include,
           let namespace := include_namespace f include in
           <[toLibraryName namespace := dep_path ("../" +:+ toLibraryName namespace)]> deps)
        deps includes.

Definition pubspec_deps (f : parser.Frugal) : gmap string dep :=
  add_includes f (parser.ReferencedIncludes f)
    (<["frugal" := dep_git "git@github.com:Workiva/frugal-dart.git"]>
       (<["thrift" := dep_git "git@github.com:Workiva/thrift-dart.git"]> ∅)).

(** The manifest [addToPubspec] builds before it serialises it. *)
Definition pubspec_of (f : parser.Frugal) : pubspec :=
  let namespace :=
    match parser.Namespaces (parser.Frugal_Thrift f) !! lang with
    | Some namespace => namespace
    | None => parser.Frugal_Name f
    end in
  {| ps_Name := strings.ToLower (toLibraryName namespace);
     ps_Version := Version;
     ps_Description := "Autogenerated by the frugal compiler";
     ps_Environment := {| SDK := "^" +:+ minimumDartVersion |};
     ps_Dependencies := pubspec_deps f |}.


(** The line [exportClasses] adds for one scope. *)
Definition export_line (scope : parser.Scope) : string :=
  "export 'src/" +:+ FilePrefix +:+ strings.ToLower (parser.Name scope)
    +:+ "." +:+ lang +:+ "' show " +:+ parser.Name scope +:+ "Publisher, "
    +:+ parser.Name scope +:+ "Subscriber;" +:+ nl.

Definition exports_of (f : parser.Frugal) : string :=
  foldl (λ exports scope, exports +:+ export_line scope) nl (parser.Scopes f).

Definition mainFilePath (f : parser.Frugal) (dir : string) : string :=
  let filename :=
    match parser.Namespaces (parser.Frugal_Thrift f) !! lang with
    | Some ns => strings.ToLower (toLibraryName ns)
    | None => strings.ToLower (parser.Frugal_Name f)
    end in
  let dartFile := filename +:+ "." +:+ lang in
  Join [dir; "lib"; dartFile].

Definition exportClasses (g : Generator) (f : parser.Frugal) (dir : string)
    (fs : os.FS) : os.FS * option os.error :=
  match fs !! mainFilePath f dir with
  | None => (fs, Some (os.PathError "open" (mainFilePath f dir)))
  | Some mainFile =>
      let exports := exports_of f in
      (<[mainFilePath f dir := os.WriteAt mainFile exports (os.Size mainFile)]> fs,
       None)
  end.


Definition GenerateFile (g : Generator) (name outputDir : string)
    (fileType : FileType) : option File * option os.error :=
  if decide (fileType ≠ CombinedScopeFile)
  then (None,
        Some (os.Errorf ("frugal: Bad file type for dartlang generator: " +:+ fileType)))
  else
    let outputDir := Join [outputDir; "lib"] in
    let outputDir := Join [outputDir; "src"] in
    CreateFile (strings.ToLower name) outputDir lang true.

Definition GenerateConstants (name : string) : string :=
  "const String delimiter = '" +:+ TopicDelimiter +:+ "';".

Definition qualifiedParamName (g : Generator) (op : parser.Operation) : string :=
  let param := parser.ParamName op in
  let include := parser.IncludeName op in
  if decide (include ≠ "")
  then
    let namespace := include_namespace (Frugal g) include in
    let namespace := toLibraryName namespace in
    "t_" +:+ strings.ToLower namespace +:+ "." +:+ param
  else "t_" +:+ strings.ToLower param +:+ "." +:+ param.

Definition generatePrefixStringTemplate (scope : parser.Scope) : option string :=
  if decide (parser.String_ (parser.Prefix scope) = "") then Some ""
  else
    let template := parser.Template (parser.Prefix scope) +:+ TopicDelimiter in
    if decide (length (parser.Variables (parser.Prefix scope)) = 0)
    then Some template
    else
      let vars := (λ variable, "${" +:+ variable +:+ "}")
                    <$> parser.Variables (parser.Prefix scope) in
      fmt.Sprintf template vars.


(** The head of a generated class up to its first method. *)
Definition publisher_head (scope : parser.Scope) : string :=
  "class " +:+ strings.Title (parser.Name scope) +:+ "Publisher {" +:+ nl
  +:+ tab +:+ "frugal.Transport transport;" +:+ nl
  +:+ tab +:+ "thrift.TProtocol protocol;" +:+ nl
  +:+ tab +:+ "int seqId;" +:+ nl +:+ nl
  +:+ tab +:+ strings.Title (parser.Name scope)
  +:+ "Publisher(frugal.Provider provider) {" +:+ nl
  +:+ tabtab +:+ "var tp = provider.newTransportProtocol();" +:+ nl
  +:+ tabtab +:+ "transport = tp.transport;" +:+ nl
  +:+ tabtab +:+ "protocol = tp.protocol;" +:+ nl
  +:+ tabtab +:+ "seqId = 0;" +:+ nl
  +:+ tab +:+ "}" +:+ nl +:+ nl.




Definition subscriber_head (scope : parser.Scope) : string :=
  "class " +:+ strings.Title (parser.Name scope) +:+ "Subscriber {" +:+ nl
  +:+ tab +:+ "final frugal.Provider provider;" +:+ nl +:+ nl
  +:+ tab +:+ strings.Title (parser.Name scope)
  +:+ "Subscriber(this.provider) {}" +:+ nl +:+ nl.


(** The private receive routine that follows it. *)
Definition recv_method (g : Generator) (op : parser.Operation) : string :=
  tab +:+ qualifiedParamName g op +:+ " _recv" +:+ parser.Op_Name op
  +:+ "(String op, thrift.TProtocol iprot) {" +:+ nl
  +:+ tabtab +:+ "var tMsg = iprot.readMessageBegin();" +:+ nl
  +:+ tabtab +:+ "if (tMsg.name != op) {" +:+ nl
  +:+ tabtabtab +:+ "thrift.TProtocolUtil.skip(iprot, thrift.TType.STRUCT);" +:+ nl
  +:+ tabtabtab +:+ "iprot.readMessageEnd();" +:+ nl
  +:+ tabtabtab +:+ "throw new thrift.TApplicationError(" +:+ nl
  +:+ tabtabtab +:+ "thrift.TApplicationErrorType.UNKNOWN_METHOD, tMsg.name);" +:+ nl
  +:+ tabtab +:+ "}" +:+ nl
  +:+ tabtab +:+ "var req = new " +:+ qualifiedParamName g op +:+ "();" +:+ nl
  +:+ tabtab +:+ "req.read(iprot);" +:+ nl
  +:+ tabtab +:+ "iprot.readMessageEnd();" +:+ nl
  +:+ tabtab +:+ "return req;" +:+ nl
  +:+ tab +:+ "}" +:+ nl.



Definition GenerateDocStringComment : string :=
  "// Autogenerated by Frugal Compiler (" +:+ Version +:+ ")" +:+ nl
  +:+ "// DO NOT EDIT UNLESS YOU ARE SURE THAT YOU KNOW WHAT YOU ARE DOING".

(** The order in which Go ranges over the keys of a map.  The language
    leaves it open; the generator's output depends on it. *)
Variable range_keys : gmap string bool → list string.

(** The import line for an include, and the one for a parameter type
    of the schema itself. *)
Definition include_import (sf : parser.Frugal) (include : string) : string :=
  let namespace := include_namespace sf include in
  let namespace := strings.ToLower (toLibraryName namespace) in
  "import 'package:" +:+ namespace +:+ "/" +:+ namespace +:+ ".dart' as t_"
  +:+ namespace +:+ ";" +:+ nl.

Definition param_import (param : string) : string :=
  let lowerParam := strings.ToLower param in
  "import '" +:+ lowerParam +:+ ".dart' as t_" +:+ lowerParam +:+ ";" +:+ nl.

(** The set [GenerateScopeImports] collects: the parameter types
    without a dot. *)
Definition same_package_params (s : parser.Scope) : gmap string bool :=
  foldl (λ params op,
           if negb (strings.Contains (parser.Param op) ".")
           then <[parser.Param op := true]> params
           else params)
        ∅ (parser.Operations s).

(** [GenerateScopeImports]: the text it hands to [file.WriteString].
    [sf] is the schema the scope belongs to, [s.Frugal] in the source. *)
Definition GenerateScopeImports (g : Generator) (sf : parser.Frugal)
    (s : parser.Scope) : string :=
  let imports := "import 'dart:async';" +:+ nl +:+ nl in
  let imports := imports +:+ "import 'package:thrift/thrift.dart' as thrift;" +:+ nl in
  let imports :=
    imports +:+ "import 'package:frugal/frugal.dart' as frugal;" +:+ nl +:+ nl in
  let imports :=
    foldl (λ imports include, imports +:+ include_import sf include)
          imports (parser.Scope_ReferencedIncludes s) in
  let params := same_package_params s in
  foldl (λ imports param, imports +:+ param_import param)
        imports (range_keys params).

End dartlang.

(** ** The Dart the generator emits

    The bodies of the generated constructors and methods are sequences
    of a handful of statement forms.  [stmt] has one constructor for
    each form, [render] prints it exactly as the generator does, and
    [exec] gives it its meaning: a change of the variables in scope and
    the calls made on the thrift and frugal libraries, in order. *)
Module Dart.

(** The objects a generated class handles.  [Given] is an object the
    caller supplies (the provider, a request, a protocol to read from),
    [Pair] the [n]-th transport and protocol pair a provider handed
    out, [New] a fresh instance of a class. *)
Inductive object :=
  | Given (name : string)
  | Pair (provider : object) (n : nat)
  | TransportOf (o : object)
  | ProtocolOf (o : object)
  | New (class : string).

(** [thrift.TMessageType]. *)
Inductive messageType := CALL | REPLY | EXCEPTION | ONEWAY.

(** [thrift.TMessage]: the envelope of a message. *)
Record message := {
  name : string;
  type : messageType;
  seqid : Z
}.

Inductive value :=
  | Null
  | Str (s : string)
  | Int (n : Z)
  | Msg (m : message)
  | Obj (o : object)
  | FlushFuture (transport : object).

(** [thrift.TApplicationError] of type [UNKNOWN_METHOD]. *)
Inductive exception :=
  | UnknownMethod (message : string).

(** The library calls a generated body makes. *)
Inductive event :=
  | newTransportProtocol (provider : object)
  | preparePublish (transport : object) (topic : string)
  | writeMessageBegin (protocol : object) (m : message)
  | write (req protocol : object)
  | writeMessageEnd (protocol : object)
  | flush (transport : object)
  | readMessageBegin (protocol : object)
  | skipStruct (protocol : object)
  | readMessageEnd (protocol : object)
  | read (req protocol : object).

(** The right-hand sides of the generated declarations and assignments. *)
Inductive rhs :=
  | RStr (lit : string)
  | RInt (n : Z)
  | RVar (x : string)
  | RField (x f : string)
  | RNewMessage (op seq : string)
  | RNew (class : string)
  | RNewTransportProtocol (provider : string)
  | RReadMessageBegin (protocol : string).

#[warnings="-register-all"]
Inductive stmt :=
  | Var (x : string) (e : rhs)
  | Assign (x : string) (e : rhs)
  | Incr (x : string)
  | PreparePublish (transport topic : string)
  | WriteMessageBegin (protocol msg : string)
  | Write (req protocol : string)
  | WriteMessageEnd (protocol : string)
  | ReturnFlush (protocol : string)
  | Return (x : string)
  | IfNameDiffers (msg x : string) (body : list stmt)
  | SkipStruct (protocol : string)
  | ReadMessageEnd (protocol : string)
  | ThrowUnknownMethod (msg : string)
  | Read (req protocol : string).

(** *** Concrete syntax *)

Definition render_rhs (e : rhs) : string :=
  match e with
  | RStr lit => dq +:+ lit +:+ dq
  | RInt n => pretty n
  | RVar x => x
  | RField x f => x +:+ "." +:+ f
  | RNewMessage op seq =>
      "new thrift.TMessage(" +:+ op +:+ ", thrift.TMessageType.CALL, " +:+ seq +:+ ")"
  | RNew class => "new " +:+ class +:+ "()"
  | RNewTransportProtocol provider => provider +:+ ".newTransportProtocol()"
  | RReadMessageBegin protocol => protocol +:+ ".readMessageBegin()"
  end.

(** A statement on a line of its own, indented by [ind]. *)
Fixpoint render (ind : string) (s : stmt) : string :=
  match s with
  | Var x e => ind +:+ "var " +:+ x +:+ " = " +:+ render_rhs e +:+ ";" +:+ nl
  | Assign x e => ind +:+ x +:+ " = " +:+ render_rhs e +:+ ";" +:+ nl
  | Incr x => ind +:+ x +:+ "++;" +:+ nl
  | PreparePublish transport topic =>
      ind +:+ transport +:+ ".preparePublish(" +:+ topic +:+ ");" +:+ nl
  | WriteMessageBegin protocol msg =>
      ind +:+ protocol +:+ ".writeMessageBegin(" +:+ msg +:+ ");" +:+ nl
  | Write req protocol => ind +:+ req +:+ ".write(" +:+ protocol +:+ ");" +:+ nl
  | WriteMessageEnd protocol => ind +:+ protocol +:+ ".writeMessageEnd();" +:+ nl
  | ReturnFlush protocol =>
      ind +:+ "return " +:+ protocol +:+ ".transport.flush();" +:+ nl
  | Return x => ind +:+ "return " +:+ x +:+ ";" +:+ nl
  | IfNameDiffers msg x body =>
      ind +:+ "if (" +:+ msg +:+ ".name != " +:+ x +:+ ") {" +:+ nl
      +:+ (fix block (l : list stmt) : string :=
             match l with
             | [] => ""
             | s :: l => render (tab +:+ ind) s +:+ block l
             end) body
      +:+ ind +:+ "}" +:+ nl
  | SkipStruct protocol =>
      ind +:+ "thrift.TProtocolUtil.skip(" +:+ protocol +:+ ", thrift.TType.STRUCT);" +:+ nl
  | ReadMessageEnd protocol => ind +:+ protocol +:+ ".readMessageEnd();" +:+ nl
  | ThrowUnknownMethod msg =>
      ind +:+ "throw new thrift.TApplicationError(" +:+ nl
      +:+ ind +:+ "thrift.TApplicationErrorType.UNKNOWN_METHOD, " +:+ msg +:+ ".name);" +:+ nl
  | Read req protocol => ind +:+ req +:+ ".read(" +:+ protocol +:+ ");" +:+ nl
  end.

Fixpoint render_block (ind : string) (l : list stmt) : string :=
  match l with
  | [] => ""
  | s :: l => render ind s +:+ render_block ind l
  end.

(** *** String literals

    A literal is read from left to right.  [$name] and [${name}] stand
    for the string the variable [name] holds, a backslash escapes the
    character after it.  Interpolated expressions other than a variable
    that holds a string, escapes by character code, and a quote or line
    end inside the literal are outside the model: [interpolate] is
    [None] on them. *)
Inductive mode :=
  | Text
  | Dollar
  | Braced (x : string)
  | Bare (x : string)
  | Escape.

Definition ident_start (c : ascii) : bool :=
  strings.is_lower c || strings.is_upper c || Ascii.eqb c "_".

Definition ident_part (c : ascii) : bool :=
  ident_start c || strings.is_digit c.

Definition escaped (c : ascii) : option ascii :=
  if Ascii.eqb c "n" then Some "010"%char
  else if Ascii.eqb c "r" then Some "013"%char
  else if Ascii.eqb c "t" then Some "009"%char
  else if Ascii.eqb c "b" then Some "008"%char
  else if Ascii.eqb c "f" then Some "012"%char
  else if Ascii.eqb c "v" then Some "011"%char
  else if Ascii.eqb c "x" || Ascii.eqb c "u" then None
  else Some c.

Section interpolate.

Variable quote : ascii.

(** The strings the variables in scope hold; the empty name is none. *)
Variable ρ : string → option string.

Fixpoint interpolate (m : mode) (lit : string) : option string :=
  match lit with
  | "" =>
      match m with
      | Text => Some ""
      | Bare x => ρ x
      | _ => None
      end
  | String c r =>
      let text :=
        if Ascii.eqb c "$" then interpolate Dollar r
        else if Ascii.eqb c "\" then interpolate Escape r
        else if Ascii.eqb c quote || Ascii.eqb c "010" || Ascii.eqb c "013" then None
        else String c <$> interpolate Text r in
      match m with
      | Text => text
      | Dollar =>
          if Ascii.eqb c "{" then interpolate (Braced "") r
          else if ident_start c then interpolate (Bare (String c "")) r
          else None
      | Braced x =>
          if Ascii.eqb c "}"
          then v ← ρ x; (λ s, v +:+ s) <$> interpolate Text r
          else if (if decide (x = "") then ident_start c else ident_part c)
          then interpolate (Braced (x +:+ String c "")) r
          else None
      | Bare x =>
          if ident_part c then interpolate (Bare (x +:+ String c "")) r
          else v ← ρ x; (λ s, v +:+ s) <$> text
      | Escape => e ← escaped c; String e <$> interpolate Text r
      end
  end.

End interpolate.

(** *** Meaning *)

Definition store := list (string * value).

Fixpoint lookup (x : string) (σ : store) : option value :=
  match σ with
  | [] => None
  | (y, v) :: σ => if decide (x = y) then Some v else lookup x σ
  end.

(** Assignment to the nearest binding of [x], if there is one. *)
Fixpoint update (x : string) (v : value) (σ : store) : option store :=
  match σ with
  | [] => None
  | (y, w) :: σ =>
      if decide (x = y) then Some ((y, v) :: σ)
      else (λ σ', (y, w) :: σ') <$> update x v σ
  end.

(** The state of a running body: its local variables, the fields of
    the instance it runs on, how many pairs the provider has handed
    out, the envelopes waiting to be read, and the library calls made
    so far, oldest first. *)
Record state := {
  locals : store;
  fields : store;
  pairs : nat;
  inbox : list message;
  trace : list event
}.

Inductive outcome :=
  | Continue
  | Returned (v : value)
  | Thrown (e : exception)
  | Wrong.

Section exec.

(** The constants of the library the class is part of. *)
Variable consts : store.

Definition find (x : string) (st : state) : option value :=
  match lookup x (locals st) with
  | Some v => Some v
  | None =>
      match lookup x (fields st) with
      | Some v => Some v
      | None => lookup x consts
      end
  end.

Definition find_str (st : state) (x : string) : option string :=
  match find x st with
  | Some (Str s) => Some s
  | _ => None
  end.

Definition emit (e : event) (st : state) : state :=
  {| locals := locals st; fields := fields st; pairs := pairs st;
     inbox := inbox st; trace := trace st ++ [e] |}.

Definition declare (x : string) (v : value) (st : state) : state :=
  {| locals := (x, v) :: locals st; fields := fields st; pairs := pairs st;
     inbox := inbox st; trace := trace st |}.

Definition assign (x : string) (v : value) (st : state) : option state :=
  match update x v (locals st) with
  | Some l =>
      Some {| locals := l; fields := fields st; pairs := pairs st;
              inbox := inbox st; trace := trace st |}
  | None =>
      f ← update x v (fields st);
      Some {| locals := locals st; fields := f; pairs := pairs st;
              inbox := inbox st; trace := trace st |}
  end.

Definition eval (e : rhs) (st : state) : option (value * state) :=
  match e with
  | RStr lit => s ← interpolate "034" (find_str st) Text lit; Some (Str s, st)
  | RInt n => Some (Int n, st)
  | RVar x => v ← find x st; Some (v, st)
  | RField x f =>
      match find x st with
      | Some (Obj o) =>
          if decide (f = "transport") then Some (Obj (TransportOf o), st)
          else if decide (f = "protocol") then Some (Obj (ProtocolOf o), st)
          else None
      | _ => None
      end
  | RNewMessage op seq =>
      match find op st, find seq st with
      | Some (Str s), Some (Int n) =>
          Some (Msg {| name := s; type := CALL; seqid := n |}, st)
      | _, _ => None
      end
  | RNew class => Some (Obj (New class), st)
  | RNewTransportProtocol provider =>
      match find provider st with
      | Some (Obj p) =>
          Some (Obj (Pair p (pairs st)),
                emit (newTransportProtocol p)
                  {| locals := locals st; fields := fields st;
                     pairs := S (pairs st); inbox := inbox st;
                     trace := trace st |})
      | _ => None
      end
  | RReadMessageBegin protocol =>
      match find protocol st, inbox st with
      | Some (Obj p), m :: rest =>
          Some (Msg m,
                emit (readMessageBegin p)
                  {| locals := locals st; fields := fields st;
                     pairs := pairs st; inbox := rest; trace := trace st |})
      | _, _ => None
      end
  end.

Definition call1 (x : string) (e : object → event) (st : state) : state * outcome :=
  match find x st with
  | Some (Obj o) => (emit (e o) st, Continue)
  | _ => (st, Wrong)
  end.

Definition call2 (x y : string) (e : object → object → event) (st : state)
    : state * outcome :=
  match find x st, find y st with
  | Some (Obj o), Some (Obj p) => (emit (e o p) st, Continue)
  | _, _ => (st, Wrong)
  end.

Fixpoint exec (s : stmt) (st : state) : state * outcome :=
  match s with
  | Var x e =>
      match eval e st with
      | Some (v, st) => (declare x v st, Continue)
      | None => (st, Wrong)
      end
  | Assign x e =>
      match eval e st with
      | Some (v, st') =>
          match assign x v st' with
          | Some st'' => (st'', Continue)
          | None => (st, Wrong)
          end
      | None => (st, Wrong)
      end
  | Incr x =>
      match find x st with
      | Some (Int n) =>
          match assign x (Int (n + 1)) st with
          | Some st' => (st', Continue)
          | None => (st, Wrong)
          end
      | _ => (st, Wrong)
      end
  | PreparePublish transport topic =>
      match find transport st, find topic st with
      | Some (Obj t), Some (Str s) => (emit (preparePublish t s) st, Continue)
      | _, _ => (st, Wrong)
      end
  | WriteMessageBegin protocol msg =>
      match find protocol st, find msg st with
      | Some (Obj p), Some (Msg m) => (emit (writeMessageBegin p m) st, Continue)
      | _, _ => (st, Wrong)
      end
  | Write req protocol => call2 req protocol write st
  | WriteMessageEnd protocol => call1 protocol writeMessageEnd st
  | ReturnFlush protocol =>
      match find protocol st with
      | Some (Obj p) =>
          (emit (flush (TransportOf p)) st, Returned (FlushFuture (TransportOf p)))
      | _ => (st, Wrong)
      end
  | Return x =>
      match find x st with
      | Some v => (st, Returned v)
      | None => (st, Wrong)
      end
  | IfNameDiffers msg x body =>
      match find msg st, find x st with
      | Some (Msg m), Some (Str expected) =>
          if decide (name m ≠ expected)
          then (fix block (l : list stmt) (st : state) : state * outcome :=
                  match l with
                  | [] => (st, Continue)
                  | s :: l =>
                      match exec s st with
                      | (st, Continue) => block l st
                      | r => r
                      end
                  end) body st
          else (st, Continue)
      | _, _ => (st, Wrong)
      end
  | SkipStruct protocol => call1 protocol skipStruct st
  | ReadMessageEnd protocol => call1 protocol readMessageEnd st
  | ThrowUnknownMethod msg =>
      match find msg st with
      | Some (Msg m) => (st, Thrown (UnknownMethod (name m)))
      | _ => (st, Wrong)
      end
  | Read req protocol => call2 req protocol read st
  end.

Fixpoint exec_block (l : list stmt) (st : state) : state * outcome :=
  match l with
  | [] => (st, Continue)
  | s :: l =>
      match exec s st with
      | (st, Continue) => exec_block l st
      | r => r
      end
  end.

(** A call of a method or constructor with body [body] on an instance
    whose fields are [this]: the parameters are the first locals. *)
Definition call (body : list stmt) (params this : store) (n : nat)
    (envelopes : list message) : state * outcome :=
  exec_block body
    {| locals := params; fields := this; pairs := n;
       inbox := envelopes; trace := [] |}.

End exec.

End Dart.

(** ** The generated bodies as statements

    What follows names, for each body the generator writes, the
    statements it consists of.  That the generator's text is the
    rendering of these statements is proved below. *)


(** The body of the publisher's constructor. *)
Definition constructor_body : list Dart.stmt :=
  [Dart.Var "tp" (Dart.RNewTransportProtocol "provider");
   Dart.Assign "transport" (Dart.RField "tp" "transport");
   Dart.Assign "protocol" (Dart.RField "tp" "protocol");
   Dart.Assign "seqId" (Dart.RInt 0)].

(** The three declarations with which a publish and a subscribe method
    compute the topic. *)
Definition topic_stmts (scope : parser.Scope) (op : parser.Operation)
    (template : string) : list Dart.stmt :=
  [Dart.Var "op" (Dart.RStr (parser.Op_Name op));
   Dart.Var "prefix" (Dart.RStr template);
   Dart.Var "topic"
     (Dart.RStr ("${prefix}" +:+ strings.Title (parser.Name scope)
                   +:+ "${delimiter}${op}"))].

(** What a publish method does with the topic. *)
Definition send_stmts : list Dart.stmt :=
  [Dart.PreparePublish "transport" "topic";
   Dart.Var "oprot" (Dart.RVar "protocol");
   Dart.Incr "seqId";
   Dart.Var "msg" (Dart.RNewMessage "op" "seqId");
   Dart.WriteMessageBegin "oprot" "msg";
   Dart.Write "req" "oprot";
   Dart.WriteMessageEnd "oprot";
   Dart.ReturnFlush "oprot"].

Definition publish_body (scope : parser.Scope) (op : parser.Operation)
    (template : string) : list Dart.stmt :=
  topic_stmts scope op template ++ send_stmts.

(** The body of the private receive routine. *)
Definition recv_body (g : Generator) (op : parser.Operation) : list Dart.stmt :=
  [Dart.Var "tMsg" (Dart.RReadMessageBegin "iprot");
   Dart.IfNameDiffers "tMsg" "op"
     [Dart.SkipStruct "iprot";
      Dart.ReadMessageEnd "iprot";
      Dart.ThrowUnknownMethod "tMsg"];
   Dart.Var "req" (Dart.RNew (qualifiedParamName g op));
   Dart.Read "req" "iprot";
   Dart.ReadMessageEnd "iprot";
   Dart.Return "req"].



Definition recv_signature (g : Generator) (op : parser.Operation) : string :=
  tab +:+ qualifiedParamName g op +:+ " _recv" +:+ parser.Op_Name op
  +:+ "(String op, thrift.TProtocol iprot) {" +:+ nl.


(** The constants of the generated library: [GenerateConstants] writes
    [const String delimiter = '...';]. *)
Definition library_consts (TopicDelimiter : string) : Dart.store :=
  match Dart.interpolate "'" (λ _, None) Dart.Text TopicDelimiter with
  | Some d => [("delimiter", Dart.Str d)]
  | None => []
  end.

(** The [String] parameters of a publish or subscribe method, bound to
    the arguments of a call. *)
Definition bind_args (scope : parser.Scope) (args : list string) : Dart.store :=
  zip (parser.Variables (parser.Prefix scope)) (Dart.Str <$> args).

(** The state in which the body of a publish method starts. *)
Definition publish_entry (scope : parser.Scope) (args : list string)
    (req : Dart.object) (this : Dart.store) : Dart.state :=
  {| Dart.locals := bind_args scope args ++ [("req", Dart.Obj req)];
     Dart.fields := this; Dart.pairs := 0; Dart.inbox := [];
     Dart.trace := [] |}.

(** The state in which the body of a subscribe method starts: the last
    parameter is the callback, the instance holds the provider. *)
Definition subscribe_entry (scope : parser.Scope) (op : parser.Operation)
    (args : list string) (callback provider : Dart.object) : Dart.state :=
  {| Dart.locals :=
       bind_args scope args ++ [("on" +:+ parser.ParamName op, Dart.Obj callback)];
     Dart.fields := [("provider", Dart.Obj provider)];
     Dart.pairs := 0; Dart.inbox := []; Dart.trace := [] |}.

(** The topic the three declarations compute from a state. *)
Definition computed_topic (consts : Dart.store) (scope : parser.Scope)
    (op : parser.Operation) (template : string) (st : Dart.state) : option string :=
  match Dart.exec_block consts (topic_stmts scope op template) st with
  | (st, Dart.Continue) => Dart.find_str consts st "topic"
  | _ => None
  end.

(** The topics a run announced to its transport, and the envelopes it
    wrote. *)
Definition topics (tr : list Dart.event) : list string :=
  omap (λ e, match e with Dart.preparePublish _ s => Some s | _ => None end) tr.

Definition envelopes (tr : list Dart.event) : list Dart.message :=
  omap (λ e, match e with Dart.writeMessageBegin _ m => Some m | _ => None end) tr.

(** The fields of a publisher that holds transport [t] and protocol
    [p] and has sent [n] messages. *)
Definition publisher_this (t p : Dart.object) (n : Z) : Dart.store :=
  [("transport", Dart.Obj t); ("protocol", Dart.Obj p); ("seqId", Dart.Int n)].

(** The names a publish method uses for its fields and its request:
    a prefix variable with one of these names would hide them. *)
Definition reserved : list string := ["transport"; "protocol"; "seqId"; "req"].

(** Text that means itself in a format, in a Dart literal of either
    quote, and in a template. *)
Definition plain_char (c : ascii) : bool :=
  negb (bool_decide (c ∈ ["%"; "$"; "\"; "'"; "034"; "010"; "013"]%char)).

Fixpoint plain (s : string) : bool :=
  match s with
  | "" => true
  | String c r => plain_char c && plain r
  end.


Section run.

Variable TopicDelimiter : string.

(** One call of the publish method generated for [op]. *)
Definition publish (scope : parser.Scope) (op : parser.Operation)
    (args : list string) (req : Dart.object) (this : Dart.store)
    : option (Dart.state * Dart.outcome) :=
  template ← generatePrefixStringTemplate TopicDelimiter scope;
  Some (Dart.exec_block (library_consts TopicDelimiter)
          (publish_body scope op template) (publish_entry scope args req this)).


End run.

(** The topics one call of a publish method announces. *)
Definition published_topics (TopicDelimiter : string) (scope : parser.Scope)
    (op : parser.Operation) (args : list string) (req : Dart.object)
    (this : Dart.store) : option (list string) :=
  (λ result, topics (Dart.trace result.1))
    <$> publish TopicDelimiter scope op args req this.

(** ** The specification's reading of the compiled prefix *)

(** The number of placeholders of a prefix literal; [pending] tells
    whether an opening brace is waiting for its closing one. *)
Fixpoint placeholders (pending : bool) (s : string) : nat :=
  match s with
  | "" => 0
  | String c r =>
      if pending && Ascii.eqb c "}" then S (placeholders false r)
      else if pending && parser.is_word c then placeholders true r
      else placeholders (Ascii.eqb c "{") r
  end.

(** The interpolation that stands for a variable. *)
Definition slot (variable : string) : string := "${" +:+ variable +:+ "}".

(** The literal with its [i]-th placeholder replaced by an
    interpolation of the [i]-th declared variable, whatever name the
    placeholder carries. *)
Definition bind_positional (lit : string) (vars : list string) : string :=
  parser.replace_placeholders (λ i, slot <$> vars !! i) 0 None lit.

(** The compiled prefix as the specification words it. *)
Definition compiled_prefix (TopicDelimiter : string) (p : parser.ScopePrefix) : string :=
  if decide (parser.String_ p = "") then ""
  else if decide (parser.Variables p = [])
       then parser.String_ p +:+ TopicDelimiter
       else bind_positional (parser.String_ p) (parser.Variables p)
              +:+ TopicDelimiter.

Definition no_percent (s : string) : Prop := strings.Contains s "%" = false.

(** A prefix with a percent sign in its literal, and one whose literal
    has a placeholder that no variable is declared for. *)
Definition percent_prefix : parser.Scope :=
  {| parser.Comment := None; parser.Name := "Load";
     parser.Prefix := {| parser.String_ := "100%{id}"; parser.Variables := ["id"] |};
     parser.Operations := [] |}.

Definition undeclared_prefix : parser.Scope :=
  {| parser.Comment := None; parser.Name := "Load";
     parser.Prefix := {| parser.String_ := "a{x}"; parser.Variables := [] |};
     parser.Operations := [] |}.

(** The scope and operation of the specification's round-trip scenario. *)
Definition Created : parser.Operation :=
  {| parser.Op_Comment := None; parser.Op_Name := "Created";
     parser.Param := "UserEvent" |}.

Definition Events : parser.Scope :=
  {| parser.Comment := None; parser.Name := "Events";
     parser.Prefix := {| parser.String_ := "user.{id}"; parser.Variables := ["id"] |};
     parser.Operations := [Created] |}.

(** A generator at work on the scenario's schema. *)
Definition scenario_generator : Generator :=
  {| Options := ∅;
     Frugal := {| parser.Frugal_Name := "events";
                  parser.Frugal_Thrift := {| parser.Namespaces := ∅ |};
                  parser.ParsedIncludes := ∅;
                  parser.Scopes := [Events] |} |}.

(** ** Dependencies *)

(** The module names of the includes a schema refers to. *)
Definition include_libs (f : parser.Frugal) : list string :=
  (λ include, toLibraryName (include_namespace f include))
    <$> parser.ReferencedIncludes f.

(** A dependency on a sibling directory, and one on a git repository. *)
Definition is_path (d : dep) : Prop := Path d ≠ "".
Definition is_git (d : dep) : Prop := URL (Git d) ≠ "".

Definition operation (name param : string) : parser.Operation :=
  {| parser.Op_Comment := None; parser.Op_Name := name; parser.Param := param |}.

Definition scope (name : string) (ops : list parser.Operation) : parser.Scope :=
  {| parser.Comment := None; parser.Name := name;
     parser.Prefix := {| parser.String_ := ""; parser.Variables := [] |};
     parser.Operations := ops |}.

(** A schema whose scope takes a type from an include called
    [thrift], which declares no namespace for Dart. *)
Definition thrift_include : parser.Frugal :=
  {| parser.Frugal_Name := "audit";
     parser.Frugal_Thrift := {| parser.Namespaces := ∅ |};
     parser.ParsedIncludes := {[ "thrift" := {| parser.Namespaces := ∅ |} ]};
     parser.Scopes := [scope "Audit" [operation "Logged" "thrift.Entry"]] |}.

(** A schema with two includes that declare the same namespace. *)
Definition same_namespace : parser.Frugal :=
  {| parser.Frugal_Name := "audit";
     parser.Frugal_Thrift := {| parser.Namespaces := ∅ |};
     parser.ParsedIncludes :=
       {[ "one" := {| parser.Namespaces := {[ "dart" := "a.b" ]} |};
          "two" := {| parser.Namespaces := {[ "dart" := "a.b" ]} |} ]};
     parser.Scopes :=
       [scope "Audit" [operation "Logged" "one.Entry"; operation "Kept" "two.Entry"]] |}.

(** A schema with a scope whose name starts with a small letter. *)
Definition small_letter : parser.Frugal :=
  {| parser.Frugal_Name := "audit";
     parser.Frugal_Thrift := {| parser.Namespaces := ∅ |};
     parser.ParsedIncludes := ∅;
     parser.Scopes := [scope "events" [operation "Created" "UserEvent"]] |}.

(** The lines for a list of scopes, one after the other. *)
Definition export_lines (FilePrefix : string) (scopes : list parser.Scope) : string :=
  foldr (λ scope rest, export_line FilePrefix scope +:+ rest) "" scopes.

(** [filepath.Join] on clean relative paths. *)
Fixpoint join (parts : list string) : string :=
  match parts with
  | [] => ""
  | [x] => x
  | x :: r => x +:+ "/" +:+ join r
  end.

(** A Dart identifier of letters, digits and underscores. *)
Definition identifier (v : string) : bool :=
  match v with
  | "" => false
  | String c r =>
      Dart.ident_start c
      && (fix parts (s : string) : bool :=
            match s with
            | "" => true
            | String c s => Dart.ident_part c && parts s
            end) r
  end.

(** ** The text of a class *)



(** Texts one after the other. *)
Definition concat_text (texts : list string) : string :=
  foldr String.append "" texts.

(** An import that binds [alias] to the library at [source]. *)
Definition import_line (source alias : string) : string :=
  "import '" +:+ source +:+ "' as " +:+ alias +:+ ";" +:+ nl.

(** A schema whose scope takes one type from an include and one from
    the schema itself. *)
Definition mixed_params : parser.Scope :=
  {| parser.Comment := None; parser.Name := "Audit";
     parser.Prefix := {| parser.String_ := ""; parser.Variables := [] |};
     parser.Operations :=
       [{| parser.Op_Comment := None; parser.Op_Name := "Logged";
           parser.Param := "base.Entry" |};
        {| parser.Op_Comment := None; parser.Op_Name := "Kept";
           parser.Param := "Record" |}] |}.

Definition mixed_generator : Generator :=
  {| Options := ∅;
     Frugal := {| parser.Frugal_Name := "audit";
                  parser.Frugal_Thrift := {| parser.Namespaces := ∅ |};
                  parser.ParsedIncludes :=
                    {[ "base" := {| parser.Namespaces := {[ "dart" := "Acme.Base" ]} |} ]};
                  parser.Scopes := [mixed_params] |} |}.

(** An order of ranging over a map: by the keys as [map_to_list]
    gives them. *)
Definition keys_in_order (m : gmap string bool) : list string := (map_to_list m).*1.




(** The schema behind the include [base] of [mixed_generator]. *)
Definition base_schema : parser.Frugal :=
  {| parser.Frugal_Name := "base";
     parser.Frugal_Thrift := {| parser.Namespaces := {[ "dart" := "Acme.Base" ]} |};
     parser.ParsedIncludes := ∅;
     parser.Scopes := [] |}.

(** ** The topic of a scope *)

(** The prefix literal with its [i]-th placeholder replaced by the
    [i]-th argument of a call. *)
Definition fill (lit : string) (args : list string) : string :=
  parser.replace_placeholders (λ i, args !! i) 0 None lit.

(** The topic of an operation: the filled prefix and the delimiter when
    the scope has a prefix, then the scope's name in title case, the
    delimiter and the operation's name. *)
Definition topic_of (TopicDelimiter : string) (scope : parser.Scope)
    (op : parser.Operation) (args : list string) : string :=
  (if decide (parser.String_ (parser.Prefix scope) = "") then ""
   else fill (parser.String_ (parser.Prefix scope)) args +:+ TopicDelimiter)
  +:+ strings.Title (parser.Name scope) +:+ TopicDelimiter +:+ parser.Op_Name op.

(** The names a generated method declares or reads itself. *)
Definition method_names : list string :=
  reserved ++ ["op"; "prefix"; "topic"; "delimiter"].

(** A scope with two prefix variables and a name in small letters. *)
Definition Shipped : parser.Operation :=
  {| parser.Op_Comment := None; parser.Op_Name := "Shipped";
     parser.Param := "Order" |}.

Definition Orders : parser.Scope :=
  {| parser.Comment := None; parser.Name := "orders";
     parser.Prefix := {| parser.String_ := "v1.{region}.{tenant}.orders";
                         parser.Variables := ["region"; "tenant"] |};
     parser.Operations := [Shipped] |}.


(** ** Class names *)

(** The class names an export line shows for a scope, and the names
    under which [GeneratePublisher] and [GenerateSubscriber] declare
    the scope's classes. *)
Definition exported_publisher (scope : parser.Scope) : string :=
  parser.Name scope +:+ "Publisher".
Definition exported_subscriber (scope : parser.Scope) : string :=
  parser.Name scope +:+ "Subscriber".
Definition declared_publisher (scope : parser.Scope) : string :=
  strings.Title (parser.Name scope) +:+ "Publisher".
Definition declared_subscriber (scope : parser.Scope) : string :=
  strings.Title (parser.Name scope) +:+ "Subscriber".

(** A schema with a dot in its name and no namespace for Dart. *)
Definition dotted_name : parser.Frugal :=
  {| parser.Frugal_Name := "my.audit";
     parser.Frugal_Thrift := {| parser.Namespaces := ∅ |};
     parser.ParsedIncludes := ∅;
     parser.Scopes := [] |}.

(** * Properties *)

(** ** Strings *)

#[local] Arguments String.append !s1 s2 : simpl nomatch.

Lemma append_assoc (a b c : string) : (a +:+ b) +:+ c = a +:+ (b +:+ c).
Proof. induction a as [|x a IH]; simpl; [reflexivity | by rewrite IH]. Qed.

Lemma append_empty_r (a : string) : a +:+ "" = a.
Proof. induction a as [|x a IH]; simpl; [reflexivity | by rewrite IH]. Qed.

Lemma append_length (a b : string) :
  String.length (a +:+ b) = String.length a + String.length b.
Proof. induction a as [|x a IH]; simpl; [reflexivity | by rewrite IH]. Qed.

Lemma bytes_append (a b : string) : os.bytes (a +:+ b) = os.bytes a ++ os.bytes b.
Proof. induction a as [|x a IH]; simpl; [reflexivity | by rewrite IH]. Qed.

Lemma bytes_length (a : string) : length (os.bytes a) = String.length a.
Proof. induction a as [|x a IH]; simpl; [reflexivity | by rewrite IH]. Qed.

Lemma of_bytes_app (l k : list ascii) : os.of_bytes (l ++ k) = os.of_bytes l +:+ os.of_bytes k.
Proof. induction l as [|x l IH]; simpl; [reflexivity | by rewrite IH]. Qed.

(** Brings a text built with [+:+] into right-nested form. *)
Ltac flatten := repeat (rewrite ?append_assoc; simpl).

(** ** The generated text is the rendering of the statements *)

Lemma render_in_block ind l :
  (fix block (l : list Dart.stmt) : string :=
     match l with
     | [] => ""
     | s :: l => Dart.render ind s +:+ block l
     end) l = Dart.render_block ind l.
Proof. induction l as [|s l IH]; simpl; [reflexivity | by rewrite IH]. Qed.




Lemma recv_method_renders g op :
  recv_method g op
  = recv_signature g op +:+ Dart.render_block tabtab (recv_body g op)
      +:+ tab +:+ "}" +:+ nl.
Proof.
  unfold recv_method, recv_signature, recv_body.
  flatten. reflexivity.
Qed.

Lemma publisher_head_renders scope :
  publisher_head scope
  = "class " +:+ strings.Title (parser.Name scope) +:+ "Publisher {" +:+ nl
      +:+ tab +:+ "frugal.Transport transport;" +:+ nl
      +:+ tab +:+ "thrift.TProtocol protocol;" +:+ nl
      +:+ tab +:+ "int seqId;" +:+ nl +:+ nl
      +:+ tab +:+ strings.Title (parser.Name scope)
      +:+ "Publisher(frugal.Provider provider) {" +:+ nl
      +:+ Dart.render_block tabtab constructor_body
      +:+ tab +:+ "}" +:+ nl +:+ nl.
Proof. unfold publisher_head, constructor_body. flatten. reflexivity. Qed.

(** ** The compiled prefix *)

Lemma no_percent_cons c s :
  no_percent (String c s) ↔ Ascii.eqb c "%" = false ∧ no_percent s.
Proof. unfold no_percent. simpl. apply orb_false_iff. Qed.

Lemma no_percent_app a b : no_percent (a +:+ b) ↔ no_percent a ∧ no_percent b.
Proof.
  induction a as [|c a IH]; simpl.
  - unfold no_percent at 2. simpl. tauto.
  - rewrite !no_percent_cons, IH. tauto.
Qed.

Lemma is_word_not_percent c : parser.is_word c = true → Ascii.eqb c "%" = false.
Proof.
  destruct (Ascii.eqb_spec c "%") as [->|]; [|done].
  vm_compute. discriminate.
Qed.

(** Text without a percent sign is copied by [doPrintf]. *)
Lemma doPrintf_text l rest a :
  no_percent l →
  fmt.doPrintf (l +:+ rest) a = (λ r, l +:+ r) <$> fmt.doPrintf rest a.
Proof.
  induction l as [|c l IH]; intros Hl.
  - simpl. by destruct (fmt.doPrintf rest a).
  - apply no_percent_cons in Hl as [Hc Hl].
    simpl. rewrite Hc. simpl. rewrite (IH Hl).
    by destruct (fmt.doPrintf rest a).
Qed.

Lemma doPrintf_plain l : no_percent l → fmt.doPrintf l [] = Some l.
Proof.
  intros Hl. rewrite <- (append_empty_r l) at 1.
  rewrite (doPrintf_text l "" [] Hl). simpl. by rewrite append_empty_r.
Qed.

(** A literal without placeholders is its own template. *)
Lemma replace_placeholders_none f i pending s :
  placeholders (bool_decide (is_Some pending)) s = 0 →
  parser.replace_placeholders f i pending s = default "" pending +:+ s.
Proof.
  revert i pending. induction s as [|c r IH]; intros i pending H.
  - simpl. by rewrite append_empty_r.
  - destruct pending as [buf|]; simpl in *.
    + destruct (Ascii.eqb c "}"); [discriminate|].
      destruct (parser.is_word c).
      * rewrite (IH i (Some (buf +:+ String c ""))) by done.
        simpl. by rewrite append_assoc.
      * destruct (Ascii.eqb_spec c "{") as [->|Hc].
        -- by rewrite (IH i (Some "{")).
        -- by rewrite (IH i None).
    + destruct (Ascii.eqb_spec c "{") as [->|Hc].
      * by rewrite (IH i (Some "{")).
      * by rewrite (IH i None).
Qed.

(** [Sprintf] fills the placeholders of a template in the order of its
    operands, when the text around them has no percent sign and there
    is one operand for each placeholder. *)
Lemma doPrintf_template vars D s :
  no_percent D →
  ∀ i pending,
    no_percent s →
    no_percent (default "" pending) →
    placeholders (bool_decide (is_Some pending)) s = length (drop i vars) →
    fmt.doPrintf
      (parser.replace_placeholders (λ _, Some "%s") i pending s +:+ D)
      (slot <$> drop i vars)
    = Some (parser.replace_placeholders (λ j, slot <$> vars !! j) i pending s
              +:+ D).
Proof.
  intros HD. induction s as [|c r IH]; intros i pending Hs Hp Hn.
  - simpl in *. symmetry in Hn. apply length_zero_iff_nil in Hn. rewrite Hn.
    simpl. apply doPrintf_plain. by apply no_percent_app.
  - apply no_percent_cons in Hs as [Hc Hr].
    destruct pending as [buf|]; simpl in Hn, Hp |- *.
    + destruct (Ascii.eqb_spec c "}") as [->|Hclose].
      * simpl in Hn.
        destruct (drop i vars) as [|v rest] eqn:Hd; [discriminate|].
        assert (vars !! i = Some v) as Hv.
        { rewrite <- (Nat.add_0_r i), <- lookup_drop, Hd. done. }
        assert (drop (S i) vars = rest) as Hrest.
        { rewrite (drop_S _ _ _ Hv) in Hd. by injection Hd. }
        rewrite Hv. simpl. simpl in Hn. injection Hn as Hn.
        rewrite <- Hrest in *.
        specialize (IH (S i) None Hr eq_refl Hn).
        rewrite !append_assoc. simpl.
        change (list_fmap _ _ slot (drop (S i) vars)) with (slot <$> drop (S i) vars).
        rewrite IH. simpl.
        by rewrite !append_assoc.
      * destruct (parser.is_word c) eqn:Hw; simpl in Hn.
        -- apply IH; [done| |done].
           simpl. apply no_percent_app. split; [done|].
           apply no_percent_cons. split; [by apply is_word_not_percent | done].
        -- destruct (Ascii.eqb_spec c "{") as [->|Hopen].
           ++ rewrite !append_assoc, doPrintf_text by done.
              rewrite (IH i (Some "{")); done.
           ++ rewrite !append_assoc, doPrintf_text by done.
              simpl. rewrite Hc. simpl.
              rewrite (IH i None); done.
    + destruct (Ascii.eqb_spec c "{") as [->|Hopen].
      * by apply (IH i (Some "{")).
      * simpl. rewrite Hc. simpl. rewrite (IH i None); done.
Qed.

(** C1, as the code has it.  For every scope whose prefix literal has
    as many placeholders as the prefix declares variables and, when it
    declares any, has no percent sign in the literal or the delimiter,
    the compiled prefix is: empty for an empty literal; the literal
    followed by the delimiter when no variable is declared; and
    otherwise the literal with its [i]-th placeholder replaced by the
    interpolation of the [i]-th declared variable, whatever the
    placeholder is called, followed by the delimiter. *)
Theorem generatePrefixStringTemplate_positional
    (TopicDelimiter : string) (scope : parser.Scope) :
  let p := parser.Prefix scope in
  (parser.String_ p ≠ "" →
   placeholders false (parser.String_ p) = length (parser.Variables p)) →
  (parser.String_ p ≠ "" → parser.Variables p ≠ [] →
   no_percent (parser.String_ p +:+ TopicDelimiter)) →
  generatePrefixStringTemplate TopicDelimiter scope
  = Some (compiled_prefix TopicDelimiter p).
Proof.
  intros p Hcount Hplain.
  unfold generatePrefixStringTemplate, compiled_prefix. fold p.
  destruct (decide (parser.String_ p = "")) as [|Hlit]; [reflexivity|].
  specialize (Hcount Hlit). specialize (Hplain Hlit).
  destruct (parser.Variables p) as [|v vars] eqn:Hvars.
  - simpl. f_equal. unfold parser.Template.
    by rewrite replace_placeholders_none.
  - rewrite decide_False by done.
    rewrite decide_False by done.
    apply no_percent_app in Hplain as [Hs HD]; [|done].
    unfold fmt.Sprintf, parser.Template, bind_positional.
    apply (doPrintf_template (v :: vars) TopicDelimiter _ HD 0 None); done.
Qed.

Lemma generatePrefixStringTemplate_positional_witness :
  generatePrefixStringTemplate "." Events = Some "user.${id}.".
Proof.
  exact (generatePrefixStringTemplate_positional "." Events
           (λ _, eq_refl) (λ _ _, eq_refl)).
Defined.

(** C1 as it is worded fails on two scopes.  With a percent sign in
    the literal, [Sprintf] reads [%%] as an escaped percent sign and
    leaves the variable over; with a placeholder and no declared
    variable, the placeholder is returned as [%s], not verbatim. *)
Lemma generatePrefixStringTemplate_counterexample :
  (generatePrefixStringTemplate "." percent_prefix
     = Some "100%s.%!(EXTRA string=${id})"
   ∧ compiled_prefix "." (parser.Prefix percent_prefix) = "100%${id}.")
  ∧ (generatePrefixStringTemplate "." undeclared_prefix = Some "a%s."
     ∧ compiled_prefix "." (parser.Prefix undeclared_prefix) = "a{x}.").
Proof. repeat split; reflexivity. Qed.

(** ** Qualified parameter names *)

Lemma lower_not_dot c : Ascii.eqb (strings.lower c) "." = Ascii.eqb c ".".
Proof. destruct c as [[] [] [] [] [] [] [] []]; reflexivity. Qed.

Lemma lower_lower c : strings.lower (strings.lower c) = strings.lower c.
Proof. destruct c as [[] [] [] [] [] [] [] []]; reflexivity. Qed.

Lemma ToLower_idemp s : strings.ToLower (strings.ToLower s) = strings.ToLower s.
Proof. induction s as [|c s IH]; simpl; [done|]. by rewrite lower_lower, IH. Qed.

Lemma Contains_ToLower_dot s :
  strings.Contains (strings.ToLower s) "." = strings.Contains s ".".
Proof. induction s as [|c s IH]; simpl; [done|]. by rewrite lower_not_dot, IH. Qed.

Lemma toLibraryName_no_dot s : strings.Contains (toLibraryName s) "." = false.
Proof.
  unfold toLibraryName. induction s as [|c s IH]; simpl; [done|].
  rewrite IH. by destruct (Ascii.eqb_spec c ".") as [->|Hc]; [|apply orb_false_iff;
    split; [by apply Ascii.eqb_neq|]].
Qed.

(** C4.  With an include, the parameter type is qualified by [t_]
    and the include's namespace for Dart, or the include's own name
    when its schema declares none, with dots replaced and in lower
    case; the alias holds no dot and no capital letter.  Without an
    include the alias is the parameter type's own name in lower case,
    whatever schema the generator works on. *)
Theorem qualifiedParamName_resolves (g : Generator) (op : parser.Operation) :
  let include := parser.IncludeName op in
  let param := parser.ParamName op in
  (include ≠ "" →
   ∃ alias,
     qualifiedParamName g op = "t_" +:+ alias +:+ "." +:+ param
     ∧ alias = strings.ToLower (toLibraryName
                 (default include (parser.NamespaceForInclude (Frugal g) include lang)))
     ∧ strings.Contains alias "." = false
     ∧ strings.ToLower alias = alias)
  ∧ (include = "" →
     ∀ g' : Generator,
       qualifiedParamName g' op = "t_" +:+ strings.ToLower param +:+ "." +:+ param).
Proof.
  intros include param. split.
  - intros Hinc. eexists. split; [|split; [reflexivity|split]].
    + unfold qualifiedParamName. fold include param.
      rewrite decide_True by done. unfold include_namespace.
      by destruct (parser.NamespaceForInclude (Frugal g) include lang).
    + by rewrite Contains_ToLower_dot, toLibraryName_no_dot.
    + apply ToLower_idemp.
  - intros Hinc g'. unfold qualifiedParamName. fold include param.
    rewrite decide_False; [done|]. by intros ?.
Qed.

(** ** Output files *)

(** C9.  For every file type but the combined scope file,
    [GenerateFile] returns no file and an error; for the combined scope
    file it returns what [CreateFile] returns; so a file without an
    error comes back for the combined scope file only. *)
Theorem GenerateFile_combined_scope_only
    (Join : list string → string) (CombinedScopeFile : FileType) (File : Type)
    (CreateFile : string → string → string → bool → option File * option os.error)
    (g : Generator) (name outputDir : string) (fileType : FileType) :
  let result := GenerateFile Join CombinedScopeFile File CreateFile g name outputDir fileType in
  (fileType ≠ CombinedScopeFile →
   result = (None, Some (os.Errorf
               ("frugal: Bad file type for dartlang generator: " +:+ fileType))))
  ∧ (fileType = CombinedScopeFile →
     result = CreateFile (strings.ToLower name)
                (Join [Join [outputDir; "lib"]; "src"]) lang true)
  ∧ (∀ file, result = (Some file, None) → fileType = CombinedScopeFile).
Proof.
  intros result. unfold result, GenerateFile.
  destruct (decide (fileType ≠ CombinedScopeFile)) as [Hne|Heq].
  - split; [done | split; [by intros ? | intros file [=]]].
  - apply dec_stable in Heq. split; [by intros ? | split; [done | done]].
Qed.

(** ** The dependency manifest *)

Lemma add_includes_lookup f includes deps k :
  add_includes f includes deps !! k
  = if decide (k ∈ (λ include, toLibraryName (include_namespace f include)) <$> includes)
    then Some (dep_path ("../" +:+ k))
    else deps !! k.
Proof.
  revert deps. induction includes as [|i includes IH]; intros deps.
  - reflexivity.
  - unfold add_includes in *. simpl. rewrite IH. clear IH.
    set (lib := toLibraryName (include_namespace f i)).
    set (libs := _ <$> includes).
    destruct (decide (k ∈ libs)) as [Hin|Hout].
    + rewrite decide_True; [done | by right].
    + destruct (decide (k = lib)) as [->|Hne].
      * rewrite decide_True by left. by rewrite lookup_insert_eq.
      * rewrite decide_False by (by intros [?|?]%elem_of_cons).
        by rewrite lookup_insert_ne.
Qed.

Lemma pubspec_deps_lookup f k :
  pubspec_deps f !! k
  = if decide (k ∈ include_libs f) then Some (dep_path ("../" +:+ k))
    else if decide (k = "frugal")
         then Some (dep_git "git@github.com:Workiva/frugal-dart.git")
         else if decide (k = "thrift")
              then Some (dep_git "git@github.com:Workiva/thrift-dart.git")
              else None.
Proof.
  unfold pubspec_deps. rewrite add_includes_lookup. fold (include_libs f).
  destruct (decide (k ∈ include_libs f)); [done|].
  destruct (decide (k = "frugal")) as [->|]; [by rewrite lookup_insert_eq|].
  rewrite lookup_insert_ne by done.
  destruct (decide (k = "thrift")) as [->|]; [by rewrite lookup_insert_eq|].
  by rewrite lookup_insert_ne.
Qed.

Lemma pubspec_deps_path_keys f :
  dom (filter (λ kd, is_path kd.2) (pubspec_deps f)) = list_to_set (include_libs f).
Proof.
  apply set_eq. intros k.
  rewrite elem_of_dom, elem_of_list_to_set. unfold is_Some.
  setoid_rewrite map_lookup_filter_Some. setoid_rewrite pubspec_deps_lookup.
  destruct (decide (k ∈ include_libs f)) as [Hin|Hout].
  - split; [done|]. intros _. eexists. split; [done|].
    unfold is_path. simpl. discriminate.
  - split; [|done]. intros (d & Hd & Hp). unfold is_path in Hp.
    destruct (decide (k = "frugal")); [by simplify_eq|].
    destruct (decide (k = "thrift")); by simplify_eq.
Qed.

(** C5, as the code has it.  The manifest maps every module name
    among the referenced includes to the relative path of that module,
    so the keys that hold a relative-path dependency are exactly the
    distinct module names; [thrift] and [frugal] hold the two fixed git
    dependencies unless an include has that module name; and the
    manifest holds nothing else. *)
Theorem pubspec_deps_entries (Version : string) (f : parser.Frugal) :
  let deps := ps_Dependencies (pubspec_of Version f) in
  (∀ k, k ∈ include_libs f → deps !! k = Some (dep_path ("../" +:+ k)))
  ∧ dom (filter (λ kd, is_path kd.2) deps) = list_to_set (include_libs f)
  ∧ ("thrift" ∉ include_libs f →
     deps !! "thrift" = Some (dep_git "git@github.com:Workiva/thrift-dart.git"))
  ∧ ("frugal" ∉ include_libs f →
     deps !! "frugal" = Some (dep_git "git@github.com:Workiva/frugal-dart.git"))
  ∧ dom deps = {["thrift"; "frugal"]} ∪ list_to_set (include_libs f).
Proof.
  intros deps. unfold deps. simpl. clear deps.
  split; [|split; [|split; [|split]]].
  - intros k Hk. by rewrite pubspec_deps_lookup, decide_True.
  - apply pubspec_deps_path_keys.
  - intros H. by rewrite pubspec_deps_lookup, decide_False.
  - intros H. by rewrite pubspec_deps_lookup, decide_False.
  - apply set_eq. intros k.
    rewrite elem_of_dom, elem_of_union, elem_of_list_to_set, elem_of_union,
      !elem_of_singleton.
    rewrite pubspec_deps_lookup. unfold is_Some.
    destruct (decide (k ∈ include_libs f)); [split; eauto|].
    destruct (decide (k = "frugal")); [split; eauto|].
    destruct (decide (k = "thrift")); [split; eauto|].
    split; [by intros [d ?] | tauto].
Qed.

(** Two includes that resolve to one namespace give one relative-path
    dependency. *)
Lemma same_namespace_once :
  include_libs same_namespace = ["a_b"; "a_b"]
  ∧ dom (filter (λ kd, is_path kd.2)
           (ps_Dependencies (pubspec_of "1.0" same_namespace))) = {["a_b"]}.
Proof.
  split; [reflexivity|].
  simpl. rewrite pubspec_deps_path_keys.
  change (include_libs same_namespace) with ["a_b"; "a_b"]. set_solver.
Qed.

(** C5 as it is worded fails on a schema whose include is called
    [thrift]: the key [thrift] then holds the include's relative path,
    and the git dependency for the thrift runtime is not in the
    manifest. *)
Lemma pubspec_deps_counterexample :
  ps_Dependencies (pubspec_of "1.0" thrift_include) !! "thrift"
  = Some (dep_path "../thrift")
  ∧ ¬ ∃ k, ps_Dependencies (pubspec_of "1.0" thrift_include) !! k
           = Some (dep_git "git@github.com:Workiva/thrift-dart.git").
Proof.
  assert (include_libs thrift_include = ["thrift"]) as Hlibs by reflexivity.
  simpl. split.
  - rewrite pubspec_deps_lookup, Hlibs. by rewrite decide_True by set_solver.
  - intros [k Hk]. rewrite pubspec_deps_lookup, Hlibs in Hk.
    destruct (decide (k ∈ ["thrift"])) as [Hin|Hout]; [discriminate|].
    destruct (decide (k = "frugal")); [discriminate|].
    destruct (decide (k = "thrift")) as [->|]; [|discriminate].
    apply Hout. by left.
Qed.

(** ** The facade file *)

Lemma WriteAt_end content data :
  os.WriteAt content data (os.Size content) = content +:+ data.
Proof.
  unfold os.WriteAt, os.Size.
  rewrite Nat.sub_diag. simpl. rewrite app_nil_r.
  rewrite <- (bytes_length content) at 1. rewrite firstn_all.
  rewrite drop_ge by (rewrite bytes_length; lia).
  rewrite app_nil_r, of_bytes_app.
  unfold os.of_bytes, os.bytes. by rewrite !String.string_of_list_ascii_of_string.
Qed.

Lemma get_append_before i a b :
  i < String.length a → String.get i (a +:+ b) = String.get i a.
Proof.
  revert i. induction a as [|c a IH]; intros i Hi; simpl in *; [lia|].
  destruct i as [|i]; [done|]. apply IH. lia.
Qed.

Lemma exports_of_lines FilePrefix f :
  exports_of FilePrefix f = nl +:+ export_lines FilePrefix (parser.Scopes f).
Proof.
  unfold exports_of, export_lines. generalize nl as acc.
  induction (parser.Scopes f) as [|scope scopes IH]; intros acc; simpl.
  - by rewrite append_empty_r.
  - by rewrite IH, append_assoc.
Qed.

(** The part of C7 that the code keeps: when the facade file exists,
    [exportClasses] leaves every other file alone and puts behind the
    facade's old content one line break and one export line per scope,
    in order; no byte before the old end of the file changes. *)
Theorem exportClasses_appends (FilePrefix : string) (Join : list string → string)
    (g : Generator) (f : parser.Frugal) (dir : string) (fs : os.FS)
    (content : string) :
  fs !! mainFilePath Join f dir = Some content →
  exportClasses FilePrefix Join g f dir fs
  = (<[mainFilePath Join f dir :=
         content +:+ nl +:+ export_lines FilePrefix (parser.Scopes f)]> fs, None)
  ∧ ∀ i, i < String.length content →
         String.get i (content +:+ nl +:+ export_lines FilePrefix (parser.Scopes f))
         = String.get i content.
Proof.
  intros Hfile. split.
  - unfold exportClasses. rewrite Hfile.
    by rewrite WriteAt_end, exports_of_lines.
  - intros i Hi. by apply get_append_before.
Qed.

Lemma exportClasses_appends_witness :
  exportClasses "frug_" join
    {| Options := ∅; Frugal := small_letter |} small_letter "out"
    {[ "out/lib/audit.dart" := "library audit;" ]}
  = (<[ "out/lib/audit.dart" :=
          "library audit;" +:+ nl
          +:+ "export 'src/frug_events.dart' show eventsPublisher, eventsSubscriber;"
          +:+ nl ]> {[ "out/lib/audit.dart" := "library audit;" ]}, None).
Proof.
  exact (proj1 (exportClasses_appends "frug_" join
                  {| Options := ∅; Frugal := small_letter |} small_letter "out"
                  {[ "out/lib/audit.dart" := "library audit;" ]}
                  "library audit;" eq_refl)).
Defined.

(** C7 on a scope called [events].  The export line shows
    [eventsPublisher] and [eventsSubscriber], the classes the generator
    writes for the scope are [EventsPublisher] and [EventsSubscriber]:
    [exportClasses] takes the scope's name as it is, the class
    declarations pass it through [strings.Title]. *)
Lemma export_line_names_other_classes :
  let events := scope "events" [operation "Created" "UserEvent"] in
  exports_of "frug_" small_letter
  = nl +:+ "export 'src/frug_events.dart' show eventsPublisher, eventsSubscriber;"
      +:+ nl
  ∧ String.prefix "class EventsPublisher {" (publisher_head events) = true
  ∧ String.prefix "class EventsSubscriber {" (subscriber_head events) = true.
Proof. repeat split. Qed.

(** ** Running the generated bodies *)

Lemma lookup_app x l k :
  Dart.lookup x (l ++ k)
  = match Dart.lookup x l with Some v => Some v | None => Dart.lookup x k end.
Proof.
  induction l as [|[y v] l IH]; simpl; [done|].
  by destruct (decide (x = y)).
Qed.

Lemma update_unbound x v σ : Dart.lookup x σ = None → Dart.update x v σ = None.
Proof.
  induction σ as [|[y w] σ IH]; simpl; [done|].
  destruct (decide (x = y)); [done|]. intros H. by rewrite IH.
Qed.

Lemma exec_block_app consts l k st :
  Dart.exec_block consts (l ++ k) st
  = match Dart.exec_block consts l st with
    | (st', Dart.Continue) => Dart.exec_block consts k st'
    | r => r
    end.
Proof.
  revert st. induction l as [|s l IH]; intros st; simpl; [done|].
  destruct (Dart.exec consts s st) as [st' []]; auto.
Qed.


(** Unfolds the steps of a body whose variables are known. *)
Ltac step :=
  unfold Dart.find, Dart.find_str, Dart.declare, Dart.emit, Dart.assign,
    Dart.call1, Dart.call2;
  simpl.

(** What the statements after the topic do, from a state in which the
    topic is computed and no parameter hides a field or the request. *)
Lemma send_stmts_run consts params r t p n k name pre topic :
  (∀ x, x ∈ reserved → Dart.lookup x params = None) →
  Dart.exec_block consts send_stmts
    (Dart.declare "topic" (Dart.Str topic)
       (Dart.declare "prefix" (Dart.Str pre)
          (Dart.declare "op" (Dart.Str name)
             {| Dart.locals := params ++ [("req", Dart.Obj r)];
                Dart.fields := publisher_this t p n;
                Dart.pairs := k; Dart.inbox := []; Dart.trace := [] |})))
  = ({| Dart.locals :=
          ("msg", Dart.Msg {| Dart.name := name; Dart.type := Dart.CALL;
                              Dart.seqid := n + 1 |})
          :: ("oprot", Dart.Obj p) :: ("topic", Dart.Str topic)
          :: ("prefix", Dart.Str pre) :: ("op", Dart.Str name)
          :: params ++ [("req", Dart.Obj r)];
        Dart.fields := publisher_this t p (n + 1);
        Dart.pairs := k; Dart.inbox := [];
        Dart.trace :=
          [Dart.preparePublish t topic;
           Dart.writeMessageBegin p
             {| Dart.name := name; Dart.type := Dart.CALL; Dart.seqid := n + 1 |};
           Dart.write r p;
           Dart.writeMessageEnd p;
           Dart.flush (Dart.TransportOf p)] |},
     Dart.Returned (Dart.FlushFuture (Dart.TransportOf p))).
Proof.
  intros Hfree.
  assert (Dart.lookup "transport" params = None) as Ht by (apply Hfree; set_solver).
  assert (Dart.lookup "protocol" params = None) as Hp by (apply Hfree; set_solver).
  assert (Dart.lookup "seqId" params = None) as Hs by (apply Hfree; set_solver).
  assert (Dart.lookup "req" params = None) as Hr by (apply Hfree; set_solver).
  assert (∀ v, Dart.update "seqId" v (params ++ [("req", Dart.Obj r)]) = None) as Hu.
  { intros v. apply update_unbound. by rewrite lookup_app, Hs. }
  unfold send_stmts, publisher_this.
  repeat (progress (step; rewrite ?lookup_app, ?Ht, ?Hp, ?Hs, ?Hr, ?Hu; simpl)).
  reflexivity.
Qed.

(** C3.  The receive routine the generator writes is the rendering of
    [recv_body], and run on an envelope it behaves as follows.  When
    the envelope's name differs from the expected one it reads the
    envelope's head, skips the payload as a struct, closes the
    envelope and throws the unknown-method error with the name it saw;
    it never reads the payload into the parameter type.  When the names
    agree it reads the head, reads the payload into a fresh instance of
    the qualified parameter type, closes the envelope and returns the
    instance. *)
Theorem recv_rejects_other_names (consts : Dart.store) (g : Generator)
    (op : parser.Operation) (expected : string) (iprot : Dart.object)
    (m : Dart.message) (waiting : list Dart.message) (this : Dart.store) (n : nat) :
  let params := [("op", Dart.Str expected); ("iprot", Dart.Obj iprot)] in
  let run := Dart.call consts (recv_body g op) params this n (m :: waiting) in
  let req := Dart.New (qualifiedParamName g op) in
  recv_method g op
  = recv_signature g op +:+ Dart.render_block tabtab (recv_body g op)
      +:+ tab +:+ "}" +:+ nl
  ∧ (Dart.name m ≠ expected →
     run.2 = Dart.Thrown (Dart.UnknownMethod (Dart.name m))
     ∧ Dart.trace run.1
       = [Dart.readMessageBegin iprot; Dart.skipStruct iprot;
          Dart.readMessageEnd iprot])
  ∧ (Dart.name m = expected →
     run.2 = Dart.Returned (Dart.Obj req)
     ∧ Dart.trace run.1
       = [Dart.readMessageBegin iprot; Dart.read req iprot;
          Dart.readMessageEnd iprot]).
Proof.
  intros params run req. split; [apply recv_method_renders|].
  unfold run, Dart.call, recv_body, params. split; intros Hname.
  - simpl. rewrite decide_True by done. by step.
  - simpl. rewrite decide_False by (by intros ?). by step.
Qed.



(** ** The topic of a subscription *)

Lemma interpolate_ext quote ρ ρ' m lit :
  (∀ x, ρ x = ρ' x) →
  Dart.interpolate quote ρ m lit = Dart.interpolate quote ρ' m lit.
Proof.
  intros Hρ. revert m. induction lit as [|c r IH]; intros m.
  - destruct m; simpl; auto.
  - simpl. rewrite (IH Dart.Text), (IH Dart.Dollar), (IH Dart.Escape).
    destruct m; try done.
    + by rewrite (IH (Dart.Braced "")), (IH (Dart.Bare _)).
    + by rewrite Hρ, (IH (Dart.Braced _)).
    + by rewrite Hρ, (IH (Dart.Bare _)).
Qed.

Lemma find_str_declare consts x v st y :
  Dart.find_str consts (Dart.declare x (Dart.Str v) st) y
  = if decide (y = x) then Some v else Dart.find_str consts st y.
Proof. unfold Dart.find_str, Dart.find. simpl. by destruct (decide (y = x)). Qed.

(** The topic depends on the state only through the strings its
    variables hold. *)
Lemma computed_topic_ext consts scope op template st st' :
  (∀ x, Dart.find_str consts st x = Dart.find_str consts st' x) →
  computed_topic consts scope op template st
  = computed_topic consts scope op template st'.
Proof.
  intros Hsame. unfold computed_topic, topic_stmts.
  cbn [Dart.exec_block Dart.exec Dart.eval].
  rewrite (interpolate_ext _ _ _ _ (parser.Op_Name op) Hsame).
  destruct (Dart.interpolate _ _ _ (parser.Op_Name op)) as [name|];
    cbn [mbind option_bind]; [|done].
  assert (∀ x, Dart.find_str consts (Dart.declare "op" (Dart.Str name) st) x
               = Dart.find_str consts (Dart.declare "op" (Dart.Str name) st') x)
    as Hop by (intros x; by rewrite !find_str_declare, Hsame).
  rewrite (interpolate_ext _ _ _ _ template Hop).
  destruct (Dart.interpolate _ _ _ template) as [pre|];
    cbn [mbind option_bind]; [|done].
  set (s := Dart.declare "prefix" (Dart.Str pre) (Dart.declare "op" (Dart.Str name) st)).
  set (s' := Dart.declare "prefix" (Dart.Str pre) (Dart.declare "op" (Dart.Str name) st')).
  assert (∀ x, Dart.find_str consts s x = Dart.find_str consts s' x)
    as Hpre by (intros x; unfold s, s'; by rewrite !find_str_declare, Hsame).
  rewrite (interpolate_ext _ _ _ _ _ Hpre).
  destruct (Dart.interpolate _ _ _ _) as [topic|];
    cbn [mbind option_bind]; [|done].
  by rewrite !find_str_declare.
Qed.

Lemma library_consts_lookup TopicDelimiter x :
  x ≠ "delimiter" → Dart.lookup x (library_consts TopicDelimiter) = None.
Proof.
  intros Hx. unfold library_consts.
  destruct (Dart.interpolate _ _ _ _); simpl; [|done].
  by rewrite decide_False.
Qed.

(** The strings in scope at the start of a publish method and at the
    start of the subscribe method for the same operation are the same:
    what differs between the two are objects. *)
Lemma entry_strings TopicDelimiter scope op args req callback provider t p n x :
  Dart.find_str (library_consts TopicDelimiter)
    (publish_entry scope args req (publisher_this t p n)) x
  = Dart.find_str (library_consts TopicDelimiter)
      (subscribe_entry scope op args callback provider) x.
Proof.
  unfold Dart.find_str, Dart.find, publish_entry, subscribe_entry, publisher_this.
  simpl. rewrite !lookup_app.
  destruct (Dart.lookup x (bind_args scope args)) as [v|]; [done|]. simpl.
  destruct (decide (x = "on" +:+ parser.ParamName op)) as [->|Hcb].
  - simpl. rewrite decide_True by done. by rewrite library_consts_lookup.
  - destruct (decide (x = "req")) as [->|]; simpl.
    { by rewrite library_consts_lookup. }
    destruct (decide (x = "transport")) as [->|]; simpl.
    { by rewrite library_consts_lookup. }
    destruct (decide (x = "protocol")) as [->|]; simpl.
    { by rewrite library_consts_lookup. }
    destruct (decide (x = "seqId")) as [->|]; simpl.
    { by rewrite library_consts_lookup. }
    destruct (decide (x = "provider")) as [->|]; simpl.
    { by rewrite library_consts_lookup. }
    by rewrite decide_False.
Qed.


(** ** Sequence numbers *)

Lemma bind_args_unbound scope args x :
  x ∉ parser.Variables (parser.Prefix scope) →
  Dart.lookup x (bind_args scope args) = None.
Proof.
  unfold bind_args. generalize (Dart.Str <$> args) as vals.
  induction (parser.Variables (parser.Prefix scope)) as [|v vars IH];
    intros vals Hx; [done|].
  destruct vals as [|w vals]; [done|]. simpl.
  rewrite decide_False by (intros ->; apply Hx; left).
  apply IH. intros ?. apply Hx. by right.
Qed.





(** ** The round-trip scenario *)

Lemma plain_char_spec c :
  plain_char c = true →
  Ascii.eqb c "%" = false ∧ Ascii.eqb c "$" = false ∧ Ascii.eqb c "\" = false
  ∧ Ascii.eqb c "'" = false ∧ Ascii.eqb c "034" = false
  ∧ Ascii.eqb c "010" = false ∧ Ascii.eqb c "013" = false.
Proof.
  destruct c as [[] [] [] [] [] [] [] []]; vm_compute; intros H;
    first [discriminate H | repeat split].
Qed.

Lemma plain_no_percent s : plain s = true → no_percent s.
Proof.
  induction s as [|c s IH]; [done|]. simpl.
  intros [Hc Hs]%andb_true_iff. apply no_percent_cons.
  split; [apply plain_char_spec, Hc | by apply IH].
Qed.

(** Plain text is a literal that evaluates to itself. *)
Lemma interpolate_plain quote ρ s :
  quote = "'"%char ∨ quote = "034"%char →
  plain s = true →
  Dart.interpolate quote ρ Dart.Text s = Some s.
Proof.
  intros Hq. induction s as [|c s IH]; [done|]. simpl.
  intros [Hc Hs]%andb_true_iff.
  destruct (plain_char_spec c Hc) as (_ & -> & -> & Hsq & Hdq & -> & ->).
  rewrite (IH Hs). by destruct Hq as [-> | ->]; rewrite ?Hsq, ?Hdq.
Qed.

Lemma library_consts_plain TopicDelimiter :
  plain TopicDelimiter = true →
  library_consts TopicDelimiter = [("delimiter", Dart.Str TopicDelimiter)].
Proof.
  intros H. unfold library_consts. by rewrite interpolate_plain by auto.
Qed.

(** Plain text at the head of a literal is copied. *)
Lemma interpolate_text_app quote ρ s rest :
  quote = "'"%char ∨ quote = "034"%char →
  plain s = true →
  Dart.interpolate quote ρ Dart.Text (s +:+ rest)
  = (λ r, s +:+ r) <$> Dart.interpolate quote ρ Dart.Text rest.
Proof.
  intros Hq. induction s as [|c s IH]; simpl.
  - intros _. by destruct (Dart.interpolate _ _ _ rest).
  - intros [Hc Hs]%andb_true_iff.
    destruct (plain_char_spec c Hc) as (_ & -> & -> & Hsq & Hdq & -> & ->).
    rewrite (IH Hs).
    destruct Hq as [-> | ->]; rewrite ?Hsq, ?Hdq; simpl;
      by destruct (Dart.interpolate _ _ _ rest).
Qed.

Lemma ident_part_not_closing c : Dart.ident_part c = true → Ascii.eqb c "}" = false.
Proof. destruct c as [[] [] [] [] [] [] [] []]; vm_compute; congruence. Qed.

Lemma ident_start_part c : Dart.ident_start c = true → Dart.ident_part c = true.
Proof. unfold Dart.ident_part. by intros ->. Qed.

Lemma interpolate_braced quote ρ v x rest :
  (fix parts (s : string) : bool :=
     match s with
     | "" => true
     | String c s => Dart.ident_part c && parts s
     end) v = true →
  x ≠ "" →
  Dart.interpolate quote ρ (Dart.Braced x) (v +:+ "}" +:+ rest)
  = ρ (x +:+ v) ≫= λ val, (λ s, val +:+ s) <$> Dart.interpolate quote ρ Dart.Text rest.
Proof.
  revert x. induction v as [|c v IH]; intros x Hv Hx.
  - simpl. by rewrite append_empty_r.
  - apply andb_true_iff in Hv as [Hc Hv]. simpl.
    rewrite (ident_part_not_closing c Hc), decide_False, Hc by done.
    change (v +:+ String "}" rest) with (v +:+ "}" +:+ rest).
    rewrite (IH (x +:+ String c "") Hv) by (by destruct x).
    by rewrite append_assoc.
Qed.

(** An interpolation [${v}] at the head of a literal stands for the
    string the variable [v] holds. *)
Lemma interpolate_slot quote ρ v rest :
  identifier v = true →
  Dart.interpolate quote ρ Dart.Text (slot v +:+ rest)
  = ρ v ≫= λ val, (λ s, val +:+ s) <$> Dart.interpolate quote ρ Dart.Text rest.
Proof.
  destruct v as [|c v]; [done|]. intros [Hc Hv]%andb_true_iff.
  unfold slot. rewrite !append_assoc. simpl.
  rewrite (ident_part_not_closing c (ident_start_part c Hc)), Hc.
  by rewrite (interpolate_braced _ _ v (String c "") rest Hv).
Qed.

(** The topic literal evaluates to prefix, scope name, delimiter and
    operation, one after the other. *)
Lemma interpolate_topic ρ title pre delimiter op :
  plain title = true →
  ρ "prefix" = Some pre → ρ "delimiter" = Some delimiter → ρ "op" = Some op →
  Dart.interpolate "034" ρ Dart.Text ("${prefix}" +:+ title +:+ "${delimiter}${op}")
  = Some (pre +:+ title +:+ delimiter +:+ op).
Proof.
  intros Htitle Hpre Hdelimiter Hop.
  change ("${prefix}" +:+ title +:+ "${delimiter}${op}")
    with (slot "prefix" +:+ title +:+ slot "delimiter" +:+ slot "op" +:+ "").
  rewrite interpolate_slot, Hpre by done. cbn [mbind option_bind].
  rewrite interpolate_text_app by auto.
  rewrite interpolate_slot, Hdelimiter by done. cbn [mbind option_bind].
  rewrite interpolate_slot, Hop by done. simpl.
  by rewrite append_empty_r.
Qed.

(** C2, as the code has it.  For the scope [Events] with prefix
    [user.{id}] and the operation [Created] on [UserEvent], whatever
    plain text the delimiter is: the compiled prefix is [user.${id}]
    followed by the delimiter; a call of the publish method with [id]
    announces the one topic [user.] id delimiter [Events] delimiter
    [Created]; and the parameter is qualified as
    [t_userevent.UserEvent]. *)
Theorem scenario_topic (TopicDelimiter id : string) (g : Generator)
    (req t p : Dart.object) (n : Z) :
  plain TopicDelimiter = true →
  generatePrefixStringTemplate TopicDelimiter Events
  = Some ("user.${id}" +:+ TopicDelimiter)
  ∧ published_topics TopicDelimiter Events Created [id] req (publisher_this t p n)
    = Some ["user." +:+ id +:+ TopicDelimiter +:+ "Events" +:+ TopicDelimiter
              +:+ "Created"]
  ∧ qualifiedParamName g Created = "t_userevent.UserEvent".
Proof.
  intros Hplain.
  assert (generatePrefixStringTemplate TopicDelimiter Events
          = Some ("user.${id}" +:+ TopicDelimiter)) as Htemplate.
  { unfold generatePrefixStringTemplate, fmt.Sprintf. simpl.
    by rewrite doPrintf_plain by by apply plain_no_percent. }
  split; [done|]. split; [|done].
  unfold published_topics, publish. rewrite Htemplate.
  cbn [mbind option_bind fmap option_fmap option_map].
  rewrite library_consts_plain by done.
  set (consts := [("delimiter", Dart.Str TopicDelimiter)]).
  set (entry := publish_entry Events [id] req (publisher_this t p n)).
  set (st1 := Dart.declare "op" (Dart.Str "Created") entry).
  set (st2 := Dart.declare "prefix" (Dart.Str ("user." +:+ id +:+ TopicDelimiter)) st1).
  assert (Dart.exec_block consts
            (topic_stmts Events Created ("user.${id}" +:+ TopicDelimiter)) entry
          = (Dart.declare "topic"
               (Dart.Str ("user." +:+ id +:+ TopicDelimiter +:+ "Events"
                            +:+ TopicDelimiter +:+ "Created")) st2,
             Dart.Continue)) as Htopic.
  { unfold topic_stmts. cbn [Dart.exec_block Dart.exec Dart.eval].
    change (parser.Op_Name Created) with "Created".
    rewrite (interpolate_plain _ _ "Created") by auto.
    cbn [mbind option_bind]. fold st1.
    change ("user.${id}" +:+ TopicDelimiter)
      with ("user." +:+ slot "id" +:+ TopicDelimiter).
    rewrite interpolate_text_app by auto.
    rewrite interpolate_slot by done.
    change (Dart.find_str consts st1 "id") with (Some id).
    cbn [mbind option_bind]. rewrite interpolate_plain by auto.
    cbn [fmap option_fmap option_map mbind option_bind]. fold st2.
    change (strings.Title (parser.Name Events)) with "Events".
    rewrite (interpolate_topic _ "Events" ("user." +:+ id +:+ TopicDelimiter)
               TopicDelimiter "Created") by done.
    cbn [mbind option_bind]. by rewrite !append_assoc. }
  unfold publish_body. rewrite exec_block_app, Htopic.
  unfold st2, st1, entry, publish_entry.
  rewrite send_stmts_run.
  - reflexivity.
  - intros x Hx. unfold reserved in Hx.
    repeat (apply elem_of_cons in Hx as [->|Hx]; [reflexivity|]).
    by apply elem_of_nil in Hx.
Qed.

Lemma scenario_topic_witness :
  published_topics "." Events Created ["42"] (Dart.Given "req")
    (publisher_this (Dart.Given "t") (Dart.Given "p") 0)
  = Some ["user.42.Events.Created"].
Proof.
  exact (proj1 (proj2 (scenario_topic "." "42" scenario_generator
                         (Dart.Given "req") (Dart.Given "t") (Dart.Given "p") 0
                         eq_refl))).
Defined.

(** C2 as it is worded has one dot too many: with the delimiter [.]
    and the id [42] the topic is [user.42.Events.Created], while
    ["user." + id + "." + delimiter + "Events" + delimiter + "Created"]
    is [user.42..Events.Created]. *)
Lemma scenario_topic_counterexample :
  published_topics "." Events Created ["42"] (Dart.Given "req")
    (publisher_this (Dart.Given "t") (Dart.Given "p") 0)
  = Some ["user.42.Events.Created"]
  ∧ "user." +:+ "42" +:+ "." +:+ "." +:+ "Events" +:+ "." +:+ "Created"
    = "user.42..Events.Created"
  ∧ "user.42.Events.Created" ≠ "user.42..Events.Created".
Proof. repeat split. discriminate. Qed.

(** * Further properties of the generator *)

(** ** Running [exportClasses] again *)

(** [exportClasses] does not look at what the facade file holds: run
    twice on a schema, it leaves the export lines in the file twice. *)
Theorem exportClasses_twice (FilePrefix : string) (Join : list string → string)
    (g : Generator) (f : parser.Frugal) (dir : string) (fs : os.FS)
    (content : string) :
  let exports := nl +:+ export_lines FilePrefix (parser.Scopes f) in
  let once := (exportClasses FilePrefix Join g f dir fs).1 in
  fs !! mainFilePath Join f dir = Some content →
  exportClasses FilePrefix Join g f dir once
  = (<[mainFilePath Join f dir := content +:+ exports +:+ exports]> fs, None).
Proof.
  intros exports once Hfile. unfold once, exportClasses. rewrite Hfile.
  cbn [fst]. unfold os.FS in *.
  rewrite lookup_insert_eq, !WriteAt_end, exports_of_lines, insert_insert_eq.
  by rewrite append_assoc.
Qed.

Lemma exportClasses_twice_witness :
  exportClasses "frug_" join
    {| Options := ∅; Frugal := small_letter |} small_letter "out"
    (exportClasses "frug_" join
       {| Options := ∅; Frugal := small_letter |} small_letter "out"
       {[ "out/lib/audit.dart" := "library audit;" ]}).1
  = (<[ "out/lib/audit.dart" :=
          "library audit;"
          +:+ (nl +:+ export_lines "frug_" (parser.Scopes small_letter))
          +:+ (nl +:+ export_lines "frug_" (parser.Scopes small_letter)) ]>
       {[ "out/lib/audit.dart" := "library audit;" ]}, None).
Proof.
  exact (exportClasses_twice "frug_" join
           {| Options := ∅; Frugal := small_letter |} small_letter "out"
           {[ "out/lib/audit.dart" := "library audit;" ]} "library audit;"
           eq_refl).
Defined.

(** ** The names on an export line *)

Lemma append_inj_r (a b c : string) : a +:+ c = b +:+ c → a = b.
Proof.
  revert b. induction a as [|x a IH]; intros [|y b] H; simpl in H.
  - done.
  - apply (f_equal String.length) in H. simpl in H.
    rewrite append_length in H. lia.
  - apply (f_equal String.length) in H. simpl in H.
    rewrite append_length in H. lia.
  - injection H as -> H. by rewrite (IH b H).
Qed.

Lemma prefix_of_append (a b s : string) : s = a +:+ b → String.prefix a s = true.
Proof.
  intros ->. induction a as [|c a IH]; simpl; [by destruct b|].
  by destruct (ascii_dec c c).
Qed.

(** The export line for a scope shows the scope's name followed by
    [Publisher] and by [Subscriber]; the classes are declared under
    the name passed through [strings.Title].  The line names the
    generated classes exactly when [strings.Title] leaves the scope's
    name as it is. *)
Theorem export_line_names_classes (FilePrefix : string) (scope : parser.Scope) :
  export_line FilePrefix scope
  = "export 'src/" +:+ FilePrefix +:+ strings.ToLower (parser.Name scope)
      +:+ ".dart' show " +:+ exported_publisher scope +:+ ", "
      +:+ exported_subscriber scope +:+ ";" +:+ nl
  ∧ String.prefix ("class " +:+ declared_publisher scope +:+ " {")
      (publisher_head scope) = true
  ∧ String.prefix ("class " +:+ declared_subscriber scope +:+ " {")
      (subscriber_head scope) = true
  ∧ (exported_publisher scope = declared_publisher scope
     ∧ exported_subscriber scope = declared_subscriber scope
     ↔ strings.Title (parser.Name scope) = parser.Name scope).
Proof.
  unfold exported_publisher, exported_subscriber, declared_publisher,
    declared_subscriber.
  split; [|split; [|split]].
  - unfold export_line, lang. by rewrite !append_assoc.
  - eapply prefix_of_append. unfold publisher_head. flatten. reflexivity.
  - eapply prefix_of_append. unfold subscriber_head. flatten. reflexivity.
  - split.
    + intros [H _]. symmetry. by apply append_inj_r in H.
    + intros ->. done.
Qed.

(** ** [GenerateDependencies] *)



(** ** The name of the package *)

Lemma toLibraryName_id s : strings.Contains s "." = false → toLibraryName s = s.
Proof.
  unfold toLibraryName. induction s as [|c s IH]; simpl; [done|].
  intros [Hc Hs]%orb_false_iff. by rewrite Hc, IH.
Qed.

Lemma toLibraryName_length s : String.length (toLibraryName s) = String.length s.
Proof.
  unfold toLibraryName. induction s as [|c s IH]; simpl; [done|]. by rewrite IH.
Qed.

(** [toLibraryName] gives a name of the same length without a dot,
    leaves a name without a dot as it is, and so changes nothing when
    it is applied again. *)
Theorem toLibraryName_normalises (name : string) :
  strings.Contains (toLibraryName name) "." = false
  ∧ String.length (toLibraryName name) = String.length name
  ∧ (strings.Contains name "." = false → toLibraryName name = name)
  ∧ toLibraryName (toLibraryName name) = toLibraryName name.
Proof.
  split; [apply toLibraryName_no_dot|].
  split; [apply toLibraryName_length|].
  split; [apply toLibraryName_id|].
  apply toLibraryName_id, toLibraryName_no_dot.
Qed.

Lemma toLibraryName_normalises_witness : toLibraryName "audit" = "audit".
Proof.
  apply (proj1 (proj2 (proj2 (toLibraryName_normalises "audit")))). reflexivity.
Defined.

(** The package name [addToPubspec] writes has no dot and no capital
    letter.  When the schema declares a namespace for Dart, or its
    name has no dot, the facade file [exportClasses] opens is the file
    of that name under [lib]. *)
Theorem facade_is_package_file (Version : string) (Join : list string → string)
    (f : parser.Frugal) (dir : string) :
  let name := ps_Name (pubspec_of Version f) in
  strings.Contains name "." = false
  ∧ strings.ToLower name = name
  ∧ (is_Some (parser.Namespaces (parser.Frugal_Thrift f) !! lang)
     ∨ strings.Contains (parser.Frugal_Name f) "." = false →
     mainFilePath Join f dir = Join [dir; "lib"; name +:+ ".dart"]).
Proof.
  simpl. split; [|split].
  - by rewrite Contains_ToLower_dot, toLibraryName_no_dot.
  - apply ToLower_idemp.
  - unfold mainFilePath, lang.
    destruct (parser.Namespaces (parser.Frugal_Thrift f) !! "dart") as [ns|].
    + done.
    + intros [[? [=]]|Hdot]. by rewrite toLibraryName_id.
Qed.

Lemma facade_is_package_file_witness :
  mainFilePath join small_letter "out" = join ["out"; "lib"; "audit.dart"].
Proof.
  apply (proj2 (proj2 (facade_is_package_file "1.0" join small_letter "out"))).
  right. reflexivity.
Defined.

(** On a schema called [my.audit] without a namespace the two differ:
    the package is [my_audit], the facade file [lib/my.audit.dart]. *)
Lemma facade_is_package_file_dotted :
  ps_Name (pubspec_of "1.0" dotted_name) = "my_audit"
  ∧ mainFilePath join dotted_name "out" = "out/lib/my.audit.dart".
Proof. split; reflexivity. Qed.

(** ** Imports *)

Lemma foldl_append {A} (f : A → string) (l : list A) (init : string) :
  foldl (λ text x, text +:+ f x) init l = init +:+ concat_text (f <$> l).
Proof.
  revert init. induction l as [|x l IH]; intros init; simpl.
  - by rewrite append_empty_r.
  - rewrite IH. unfold concat_text. simpl. by rewrite append_assoc.
Qed.

Lemma concat_text_app (a b : list string) :
  concat_text (a ++ b) = concat_text a +:+ concat_text b.
Proof.
  induction a as [|x a IH]; [done|].
  change (x +:+ concat_text (a ++ b) = (x +:+ concat_text a) +:+ concat_text b).
  by rewrite IH, append_assoc.
Qed.

Lemma concat_text_elem {A} (f : A → string) (l : list A) (x : A) :
  x ∈ l → ∃ before after, concat_text (f <$> l) = before +:+ f x +:+ after.
Proof.
  intros (l1 & l2 & ->)%list_elem_of_split.
  exists (concat_text (f <$> l1)), (concat_text (f <$> l2)).
  by rewrite fmap_app, concat_text_app.
Qed.

Lemma add_new_elem x l seen : x ∈ parser.add_new seen l ↔ x ∈ seen ∨ x ∈ l.
Proof.
  revert seen. induction l as [|y l IH]; intros seen; simpl.
  - rewrite elem_of_nil. tauto.
  - rewrite IH, elem_of_cons. destruct (decide (y ∈ seen)) as [Hy|Hy].
    + split; [tauto|]. intros [?|[->|?]]; tauto.
    + rewrite elem_of_app, list_elem_of_singleton. tauto.
Qed.

Lemma same_package_params_lookup s k :
  is_Some (same_package_params s !! k)
  ↔ ∃ op, op ∈ parser.Operations s ∧ parser.Param op = k
          ∧ strings.Contains (parser.Param op) "." = false.
Proof.
  unfold same_package_params.
  assert (∀ ops (m : gmap string bool),
            is_Some (foldl (λ params op,
                       if negb (strings.Contains (parser.Param op) ".")
                       then <[parser.Param op := true]> params else params) m ops !! k)
            ↔ is_Some (m !! k)
              ∨ ∃ op, op ∈ ops ∧ parser.Param op = k
                      ∧ strings.Contains (parser.Param op) "." = false) as H.
  { induction ops as [|op ops IH]; intros m; simpl.
    - split; [tauto|]. intros [?|(op & Hop & _)]; [done|]. by apply elem_of_nil in Hop.
    - rewrite IH. destruct (strings.Contains (parser.Param op) ".") eqn:Hdot; simpl.
      + split.
        * intros [?|(o & Ho & ?)]; [tauto|]. right. exists o. split; [by right|done].
        * intros [?|(o & Ho & Hk & Hd)]; [tauto|].
          apply elem_of_cons in Ho as [->|Ho]; [congruence|]. right. eauto.
      + split.
        * intros [Hin|(o & Ho & ?)].
          -- destruct (decide (parser.Param op = k)) as [Heq|Hne].
             ++ right. exists op. split; [by left|done].
             ++ left. by rewrite lookup_insert_ne in Hin.
          -- right. exists o. split; [by right|done].
        * intros [Hin|(o & Ho & Hk & Hd)].
          -- left. destruct (decide (parser.Param op = k)) as [->|Hne].
             ++ rewrite lookup_insert_eq. eauto.
             ++ by rewrite lookup_insert_ne.
          -- apply elem_of_cons in Ho as [->|Ho].
             ++ left. rewrite Hk, lookup_insert_eq. eauto.
             ++ right. eauto. }
  rewrite H, lookup_empty. split; [intros [[? [=]]|?]; done | tauto].
Qed.

Lemma keys_in_order_spec (m : gmap string bool) k :
  k ∈ keys_in_order m ↔ is_Some (m !! k).
Proof.
  unfold keys_in_order. rewrite list_elem_of_fmap. split.
  - intros ([k' v] & -> & Hin). apply elem_of_map_to_list in Hin. eauto.
  - intros [v Hv]. exists (k, v). split; [done|]. by apply elem_of_map_to_list.
Qed.

Lemma line_in_left (a b line c d : string) :
  (a +:+ (b +:+ line +:+ c)) +:+ d = (a +:+ b) +:+ line +:+ (c +:+ d).
Proof. by rewrite !append_assoc. Qed.

Lemma line_in_right (a b line c : string) :
  a +:+ (b +:+ line +:+ c) = (a +:+ b) +:+ line +:+ c.
Proof. by rewrite !append_assoc. Qed.

Lemma include_import_line sf include :
  include_import sf include
  = let ns := strings.ToLower (toLibraryName (include_namespace sf include)) in
    import_line ("package:" +:+ ns +:+ "/" +:+ ns +:+ ".dart") ("t_" +:+ ns).
Proof. unfold include_import, import_line. cbv zeta. flatten. reflexivity. Qed.

Lemma param_import_line param :
  param_import param
  = import_line (strings.ToLower param +:+ ".dart") ("t_" +:+ strings.ToLower param).
Proof. unfold param_import, import_line. cbv zeta. flatten. reflexivity. Qed.

(** Every alias a qualified parameter name uses is bound by an import
    of the scope's file, in whatever order Go ranges over the
    collected parameter types: for an operation whose parameter type
    names an include, or has no dot at all, the imports hold a line
    [import '...' as alias;] for the alias that [qualifiedParamName]
    puts before the type. *)
Theorem GenerateScopeImports_binds_alias (range_keys : gmap string bool → list string)
    (g : Generator) (s : parser.Scope) (op : parser.Operation) :
  (∀ m k, k ∈ range_keys m ↔ is_Some (m !! k)) →
  op ∈ parser.Operations s →
  parser.IncludeName op ≠ "" ∨ strings.Contains (parser.Param op) "." = false →
  ∃ alias source before after,
    qualifiedParamName g op = alias +:+ "." +:+ parser.ParamName op
    ∧ GenerateScopeImports range_keys g (Frugal g) s
      = before +:+ import_line source alias +:+ after.
Proof.
  intros Hrange Hop Hshape. unfold GenerateScopeImports, qualifiedParamName.
  cbv zeta. rewrite !foldl_append.
  destruct (decide (parser.IncludeName op ≠ "")) as [Hinc|Hnone].
  - assert (parser.IncludeName op ∈ parser.Scope_ReferencedIncludes s) as Hin.
    { unfold parser.Scope_ReferencedIncludes. apply add_new_elem. right.
      apply list_elem_of_fmap. exists op. split; [done|].
      apply list_elem_of_filter. split; [|done].
      unfold parser.IncludeName in Hinc.
      by destruct (strings.Contains (parser.Param op) "."). }
    destruct (concat_text_elem (include_import (Frugal g)) _ _ Hin)
      as (before & after & ->).
    rewrite include_import_line. cbv zeta.
    set (ns := strings.ToLower (toLibraryName
                 (include_namespace (Frugal g) (parser.IncludeName op)))).
    eexists ("t_" +:+ ns), _, _, _.
    split; [by rewrite !append_assoc | apply line_in_left].
  - destruct Hshape as [?|Hdot]; [done|].
    assert (parser.ParamName op = parser.Param op) as Hname
      by (unfold parser.ParamName; by rewrite Hdot).
    assert (parser.Param op ∈ range_keys (same_package_params s)) as Hin.
    { apply Hrange, same_package_params_lookup. eauto. }
    destruct (concat_text_elem param_import _ _ Hin) as (before & after & ->).
    rewrite param_import_line, Hname.
    eexists ("t_" +:+ strings.ToLower (parser.Param op)), _, _, _.
    split; [by rewrite !append_assoc | apply line_in_right].
Qed.

Lemma GenerateScopeImports_binds_alias_witness :
  ∃ alias source before after,
    qualifiedParamName mixed_generator
      {| parser.Op_Comment := None; parser.Op_Name := "Logged";
         parser.Param := "base.Entry" |}
    = alias +:+ "." +:+ "Entry"
    ∧ GenerateScopeImports keys_in_order mixed_generator
        (Frugal mixed_generator) mixed_params
      = before +:+ import_line source alias +:+ after.
Proof.
  apply (GenerateScopeImports_binds_alias keys_in_order mixed_generator mixed_params
           {| parser.Op_Comment := None; parser.Op_Name := "Logged";
              parser.Param := "base.Entry" |}).
  - intros m k. apply keys_in_order_spec.
  - left.
  - left. discriminate.
Defined.

(** ** The topic of any well-formed scope *)

Lemma plain_app a b : plain (a +:+ b) = plain a && plain b.
Proof. induction a as [|c a IH]; simpl; [done|]. by rewrite IH, andb_assoc. Qed.

Lemma is_word_plain c : parser.is_word c = true → plain_char c = true.
Proof. destruct c as [[] [] [] [] [] [] [] []]; vm_compute; congruence. Qed.

Lemma interpolate_filled quote ρ vars vals D :
  quote = "'"%char ∨ quote = "034"%char →
  plain D = true →
  length vals = length vars →
  (∀ i v, vars !! i = Some v → identifier v = true ∧ ρ v = vals !! i) →
  ∀ s i pending,
    plain s = true → plain (default "" pending) = true →
    Dart.interpolate quote ρ Dart.Text
      (parser.replace_placeholders (λ j, slot <$> vars !! j) i pending s +:+ D)
    = Some (parser.replace_placeholders (λ j, vals !! j) i pending s +:+ D).
Proof.
  intros Hq HD Hlen Hvars. induction s as [|c r IH]; intros i pending Hs Hp.
  - simpl. apply interpolate_plain; [done|]. by rewrite plain_app, Hp, HD.
  - simpl in Hs. apply andb_true_iff in Hs as [Hc Hr].
    destruct pending as [buf|]; cbn [parser.replace_placeholders];
      [change (plain buf = true) in Hp|].
    + destruct (Ascii.eqb_spec c "}") as [->|Hclose].
      * destruct (vars !! i) as [v|] eqn:Hv.
        -- destruct (Hvars i v Hv) as [Hid Hval].
           destruct (vals !! i) as [val|] eqn:Hval'.
           2:{ apply lookup_lt_Some in Hv. apply lookup_ge_None in Hval'. lia. }
           cbn [fmap option_fmap option_map]; unfold default; cbn [from_option].
           rewrite (append_assoc (slot v)), interpolate_slot by done.
           rewrite Hval. cbn [mbind option_bind].
           rewrite (IH (S i) None Hr eq_refl).
           cbn [fmap option_fmap option_map]. by rewrite append_assoc.
        -- assert (vals !! i = None) as ->.
           { apply lookup_ge_None. apply lookup_ge_None in Hv. lia. }
           cbn [fmap option_fmap option_map]; unfold default; cbn [from_option].
           rewrite (append_assoc (buf +:+ "}")).
           rewrite interpolate_text_app by (auto; rewrite plain_app, Hp; done).
           rewrite (IH (S i) None Hr eq_refl).
           cbn [fmap option_fmap option_map]. by rewrite (append_assoc (buf +:+ "}")).
      * destruct (parser.is_word c) eqn:Hw.
        -- apply IH; [done|]. change (plain (buf +:+ String c "") = true). rewrite plain_app, Hp. simpl.
           by rewrite (is_word_plain c Hw).
        -- destruct (Ascii.eqb_spec c "{") as [->|Hopen].
           ++ rewrite (append_assoc buf), interpolate_text_app by auto.
              rewrite (IH i (Some "{") Hr eq_refl).
              cbn [fmap option_fmap option_map]. by rewrite (append_assoc buf).
           ++ rewrite (append_assoc buf), interpolate_text_app by auto.
              set (rp := parser.replace_placeholders _ i None r).
              change (String c rp +:+ D) with (String c "" +:+ (rp +:+ D)).
              rewrite (interpolate_text_app _ _ (String c ""))
                by (auto; simpl; by rewrite Hc).
              unfold rp. rewrite (IH i None Hr eq_refl).
              cbn [fmap option_fmap option_map]. by rewrite (append_assoc buf).
    + destruct (Ascii.eqb_spec c "{") as [->|Hopen].
      * by apply (IH i (Some "{")).
      * set (rp := parser.replace_placeholders _ i None r).
        change (String c rp +:+ D) with (String c "" +:+ (rp +:+ D)).
        rewrite (interpolate_text_app _ _ (String c ""))
          by (auto; simpl; by rewrite Hc).
        unfold rp. by rewrite (IH i None Hr eq_refl).
Qed.

Lemma bind_args_lookup scope args i v :
  NoDup (parser.Variables (parser.Prefix scope)) →
  parser.Variables (parser.Prefix scope) !! i = Some v →
  Dart.lookup v (bind_args scope args) = Dart.Str <$> args !! i.
Proof.
  unfold bind_args. revert args i.
  induction (parser.Variables (parser.Prefix scope)) as [|w vars IH];
    intros args i Hnd Hv; [done|].
  apply NoDup_cons in Hnd as [Hw Hnd].
  destruct args as [|a args]; [by rewrite lookup_nil|].
  destruct i as [|i]; simpl in Hv |- *.
  - injection Hv as ->. by rewrite decide_True.
  - rewrite decide_False.
    + by apply IH.
    + intros ->. apply Hw. by eapply list_elem_of_lookup_2.
Qed.

Lemma template_of_plain TopicDelimiter scope :
  let p := parser.Prefix scope in
  plain (parser.String_ p) = true →
  plain TopicDelimiter = true →
  (parser.String_ p ≠ "" →
   placeholders false (parser.String_ p) = length (parser.Variables p)) →
  generatePrefixStringTemplate TopicDelimiter scope
  = Some (if decide (parser.String_ p = "") then ""
          else bind_positional (parser.String_ p) (parser.Variables p)
                 +:+ TopicDelimiter).
Proof.
  intros p Hlit HD Hcount. unfold generatePrefixStringTemplate. fold p.
  destruct (decide (parser.String_ p = "")) as [|Hne]; [done|].
  specialize (Hcount Hne).
  destruct (parser.Variables p) as [|v vars] eqn:Hvars.
  - simpl. unfold parser.Template, bind_positional.
    by rewrite !replace_placeholders_none.
  - rewrite decide_False by done.
    unfold fmt.Sprintf, parser.Template, bind_positional.
    apply (doPrintf_template (v :: vars) TopicDelimiter _
             (plain_no_percent _ HD) 0 None); [by apply plain_no_percent|done|done].
Qed.
(** For a scope whose prefix literal, title-cased name, operation name
    and delimiter are plain text, whose literal has one placeholder for
    each declared variable, and whose variables are distinct
    identifiers other than the names the method uses itself: called
    with one argument for each variable, the publish method announces
    exactly one topic, the literal with its placeholders filled by the
    arguments in order, the delimiter, the scope's name in title case,
    the delimiter and the operation's name; the subscribe method
    computes the same topic.  The arguments may be any strings: they
    are put into the topic as they are. *)
Theorem publish_topic (TopicDelimiter : string) (scope : parser.Scope)
    (op : parser.Operation) (args : list string)
    (req callback provider t p : Dart.object) (n : Z) :
  let prefix := parser.Prefix scope in
  plain TopicDelimiter = true →
  plain (parser.String_ prefix) = true →
  plain (strings.Title (parser.Name scope)) = true →
  plain (parser.Op_Name op) = true →
  (parser.String_ prefix ≠ "" →
   placeholders false (parser.String_ prefix) = length (parser.Variables prefix)) →
  length args = length (parser.Variables prefix) →
  NoDup (parser.Variables prefix) →
  (∀ v, v ∈ parser.Variables prefix → identifier v = true ∧ v ∉ method_names) →
  ∃ template,
    generatePrefixStringTemplate TopicDelimiter scope = Some template
    ∧ published_topics TopicDelimiter scope op args req (publisher_this t p n)
      = Some [topic_of TopicDelimiter scope op args]
    ∧ computed_topic (library_consts TopicDelimiter) scope op template
        (subscribe_entry scope op args callback provider)
      = Some (topic_of TopicDelimiter scope op args).
Proof.
  intros prefix HD Hlit Htitle Hop Hcount Hlen Hnd Hvars.
  pose proof (template_of_plain TopicDelimiter scope Hlit HD Hcount) as Htemplate.
  fold prefix in Htemplate.
  set (template := if decide (parser.String_ prefix = "") then ""
                   else bind_positional (parser.String_ prefix)
                          (parser.Variables prefix) +:+ TopicDelimiter) in *.
  exists template. split; [done|].
  set (consts := library_consts TopicDelimiter).
  set (entry := publish_entry scope args req (publisher_this t p n)).
  set (pre := if decide (parser.String_ prefix = "") then ""
              else fill (parser.String_ prefix) args +:+ TopicDelimiter).
  set (st1 := Dart.declare "op" (Dart.Str (parser.Op_Name op)) entry).
  set (st2 := Dart.declare "prefix" (Dart.Str pre) st1).
  assert (∀ x, x ∈ method_names → Dart.lookup x (bind_args scope args) = None)
    as Hfree.
  { intros x Hx. apply bind_args_unbound. intros Hin.
    by destruct (Hvars x Hin) as [_ Hno]. }
  assert (∀ i v, parser.Variables prefix !! i = Some v →
                 identifier v = true ∧ Dart.find_str consts st1 v = args !! i)
    as Hargs.
  { intros i v Hv.
    assert (v ∈ parser.Variables prefix) as Hin by (by eapply list_elem_of_lookup_2).
    destruct (Hvars v Hin) as [Hid Hno]. split; [done|].
    unfold st1. rewrite find_str_declare, decide_False.
    2:{ intros ->. apply Hno. by apply (bool_decide_unpack _). }
    unfold Dart.find_str, Dart.find, entry, publish_entry. cbn [Dart.locals].
    rewrite lookup_app, (bind_args_lookup scope args i v Hnd Hv).
    destruct (args !! i) as [a|] eqn:Ha; [done|].
    apply lookup_lt_Some in Hv. apply lookup_ge_None in Ha. unfold prefix in *. lia. }
  assert (Dart.find_str consts st2 "delimiter" = Some TopicDelimiter) as Hdelimiter.
  { unfold st2, st1. rewrite !find_str_declare, !decide_False by done.
    unfold Dart.find_str, Dart.find, entry, publish_entry, publisher_this.
    cbn [Dart.locals Dart.fields]. rewrite lookup_app, Hfree.
    2:{ by apply (bool_decide_unpack _). }
    unfold consts. rewrite library_consts_plain by done. reflexivity. }
  assert (Dart.exec_block consts (topic_stmts scope op template) entry
          = (Dart.declare "topic"
               (Dart.Str (topic_of TopicDelimiter scope op args)) st2,
             Dart.Continue)) as Hrun.
  { unfold topic_stmts. cbn [Dart.exec_block Dart.exec Dart.eval].
    rewrite (interpolate_plain _ _ (parser.Op_Name op)) by auto.
    cbn [mbind option_bind]. fold st1.
    assert (Dart.interpolate "034" (Dart.find_str consts st1) Dart.Text template
            = Some pre) as ->.
    { unfold template, pre. destruct (decide (parser.String_ prefix = "")); [done|].
      by apply interpolate_filled; auto. }
    cbn [mbind option_bind]. fold st2.
    by rewrite (interpolate_topic _ _ pre TopicDelimiter (parser.Op_Name op)). }
  split.
  - unfold published_topics, publish. rewrite Htemplate.
    cbn [mbind option_bind fmap option_fmap option_map].
    unfold publish_body. rewrite exec_block_app. fold consts entry. rewrite Hrun.
    unfold st2, st1, entry, publish_entry. rewrite send_stmts_run.
    + reflexivity.
    + intros x Hx. apply Hfree. unfold method_names. apply elem_of_app. by left.
  - rewrite <- (computed_topic_ext consts scope op template entry)
      by (intros x; apply entry_strings).
    unfold computed_topic. rewrite Hrun.
    by rewrite find_str_declare, decide_True.
Qed.

Lemma publish_topic_witness :
  published_topics "." Orders Shipped ["eu"; "acme corp"] (Dart.Given "req")
    (publisher_this (Dart.Given "t") (Dart.Given "p") 0)
  = Some ["v1.eu.acme corp.orders.Orders.Shipped"].
Proof.
  assert (NoDup (parser.Variables (parser.Prefix Orders))) as Hnd.
  { apply (bool_decide_unpack _). vm_compute. exact I. }
  assert (∀ v, v ∈ parser.Variables (parser.Prefix Orders) →
               identifier v = true ∧ v ∉ method_names) as Hvars.
  { intros v Hv. simpl in Hv.
    apply elem_of_cons in Hv as [->|Hv];
      [|apply elem_of_cons in Hv as [->|Hv]; [|by apply elem_of_nil in Hv]].
    - split; [reflexivity|]. apply (bool_decide_unpack _). vm_compute. exact I.
    - split; [reflexivity|]. apply (bool_decide_unpack _). vm_compute. exact I. }
  destruct (publish_topic "." Orders Shipped ["eu"; "acme corp"] (Dart.Given "req")
              (Dart.Given "callback") (Dart.Given "provider")
              (Dart.Given "t") (Dart.Given "p") 0
              eq_refl eq_refl eq_refl eq_refl (λ _, eq_refl) eq_refl Hnd Hvars)
    as (template & _ & Htopic & _).
  exact Htopic.
Defined.

(** ** The members of the generated classes *)





(** ** An include as a dependency *)

(** For an include the schema refers to, whose own schema declares the
    namespace [ns] for Dart: the manifest holds a dependency under the
    module name of [ns] on the sibling directory of that name, which is
    the directory [GetOutputDir] gives the included schema under the
    same parent; the package the included schema's own manifest names,
    and the package the import line of the include reads, is that
    module name in small letters. *)
Theorem include_dependency_resolves (Version : string) (Join : list string → string)
    (g : Generator) (f sub : parser.Frugal) (include ns dir : string) :
  let lib := toLibraryName ns in
  include ∈ parser.ReferencedIncludes f →
  parser.ParsedIncludes f !! include = Some (parser.Frugal_Thrift sub) →
  parser.Namespaces (parser.Frugal_Thrift sub) !! lang = Some ns →
  ps_Dependencies (pubspec_of Version f) !! lib = Some (dep_path ("../" +:+ lib))
  ∧ GetOutputDir Join g dir sub = Join [dir; lib]
  ∧ ps_Name (pubspec_of Version sub) = strings.ToLower lib
  ∧ include_import f include
    = import_line ("package:" +:+ strings.ToLower lib +:+ "/"
                     +:+ strings.ToLower lib +:+ ".dart")
        ("t_" +:+ strings.ToLower lib).
Proof.
  intros lib Hin Hsub Hns.
  assert (include_namespace f include = ns) as Hnamespace.
  { unfold include_namespace, parser.NamespaceForInclude. rewrite Hsub.
    cbn [mbind option_bind]. by rewrite Hns. }
  split; [|split; [|split]].
  - cbn [ps_Dependencies pubspec_of]. rewrite pubspec_deps_lookup, decide_True; [done|].
    unfold include_libs. apply list_elem_of_fmap. exists include.
    by rewrite Hnamespace.
  - unfold GetOutputDir. by rewrite Hns.
  - cbn [ps_Name pubspec_of]. by rewrite Hns.
  - rewrite include_import_line. cbv zeta. by rewrite Hnamespace.
Qed.

Lemma include_dependency_resolves_witness :
  ps_Dependencies (pubspec_of "1.0" (Frugal mixed_generator)) !! "Acme_Base"
  = Some (dep_path "../Acme_Base")
  ∧ GetOutputDir join mixed_generator "gen-dart" base_schema = "gen-dart/Acme_Base"
  ∧ ps_Name (pubspec_of "1.0" base_schema) = "acme_base"
  ∧ include_import (Frugal mixed_generator) "base"
    = import_line "package:acme_base/acme_base.dart" "t_acme_base".
Proof.
  apply (include_dependency_resolves "1.0" join mixed_generator
           (Frugal mixed_generator) base_schema "base" "Acme.Base" "gen-dart").
  - vm_compute. left.
  - vm_compute. reflexivity.
  - vm_compute. reflexivity.
Defined.
